(** * dali_utils: the interface between the DALI pipelines and training

    A shallow embedding of
    [scripts/classification/imagenet/common/dali_utils.py]:
    the argument merge [add_dali_pipeline_args], the helper
    [get_attribute], the pipeline classes [HybridTrainPipe] and
    [HybridValPipe] with their mixins [ImageReader] and [ImageMethods],
    the iterator [SyntheticDataIter] and the assembly function
    [get_rec_pipeline_iter].

    Python integers are [Z]; strings are [string]; the parsed-arguments
    object ([argparse.Namespace]) is a finite map from attribute names to
    values; a raised exception is the [Raise] case of [result]. *)

From Stdlib Require Import ZArith Lia List String Ascii QArith.
From stdpp Require Import base option strings gmap list.

Local Open Scope string_scope.
Local Open Scope Z_scope.

(** ** Exceptions and results *)

Inductive exn : Set :=
| AttributeError
| TypeError
| ValueError
| IndexError
| ZeroDivisionError
| UnboundLocalError
| StopIteration.

Inductive result (A : Type) : Type :=
| Ok (a : A)
| Raise (e : exn).
Arguments Ok {A} a.
Arguments Raise {A} e.

#[global] Instance result_ret : MRet result := fun A a => Ok a.
#[global] Instance result_bind : MBind result := fun A B f m =>
  match m with
  | Ok a => f a
  | Raise e => Raise e
  end.

Definition is_Ok {A} (r : result A) : bool :=
  match r with Ok _ => true | Raise _ => false end.

(** [mapM f l] runs [f] over [l] from left to right and stops at the
    first exception, as a list comprehension does. *)
Fixpoint mapM {A B} (f : A → result B) (l : list A) : result (list B) :=
  match l with
  | [] => Ok []
  | x :: xs => y ← f x; ys ← mapM f xs; Ok (y :: ys)
  end.

(** ** Strings *)

(** [str.split(sep)] for a one-character separator. *)
Fixpoint split (sep : ascii) (s : string) : list string :=
  match s with
  | EmptyString => [EmptyString]
  | String c s' =>
      if Ascii.eqb c sep then EmptyString :: split sep s'
      else match split sep s' with
           | [] => [String c EmptyString]
           | w :: ws => String c w :: ws
           end
  end.

(** [needle in s] for two strings: [needle] occurs in [s]. *)
Fixpoint contains (needle s : string) : bool :=
  String.prefix needle s ||
  match s with
  | EmptyString => false
  | String _ s' => contains needle s'
  end.

Definition nonempty (s : string) : bool := negb (String.eqb s "").

(** ** Argument merge: [add_dali_pipeline_args] *)

(** The type objects that an argument tuple carries in its second place. *)
Inductive pytype : Set := IntT | StrT | FloatT.

Inductive argfield : Set :=
| FStr (s : string)
| FInt (z : Z)
| FType (t : pytype).

(** An element of [task_args] or [default_args]: a tuple whose place 0 is
    the option string; [arg_rest] holds the places from 1 on, so
    [len(arg)] is [1 + length (arg_rest arg)]. *)
Record argspec : Set := { arg_name : string; arg_rest : list argfield }.

#[global] Instance pytype_eq_dec : EqDecision pytype.
Proof. solve_decision. Defined.
#[global] Instance argfield_eq_dec : EqDecision argfield.
Proof. solve_decision. Defined.
#[global] Instance argspec_eq_dec : EqDecision argspec.
Proof. solve_decision. Defined.

(** [synonyms_list = [('--separ-val', ('--dali-separ-val'))]]: the inner
    parentheses build no tuple, so place 1 of the entry is the string
    itself and [nameB in synonims[1]] is a substring test. *)
Definition synonyms_list : list (string * string) :=
  [("--separ-val", "--dali-separ-val")].

Fixpoint synonyms_lookup (tbl : list (string * string)) (nameA nameB : string) : bool :=
  match tbl with
  | [] => false
  | synonims :: tbl' =>
      if String.eqb (fst synonims) nameA then contains nameB (snd synonims)
      else synonyms_lookup tbl' nameA nameB
  end.

Definition are_synonyms (nameA nameB : string) : bool :=
  if String.eqb nameA nameB then true
  else synonyms_lookup synonyms_list nameA nameB.

Definition dquote : string := String (Ascii.ascii_of_nat 34) EmptyString.

Definition default_args : list argspec :=
  [ {| arg_name := "--separ-val";
       arg_rest := [FStr "store_true";
                    FStr "each process will perform independent validation on whole val-set"] |};
    {| arg_name := "--dali-threads";
       arg_rest := [FType IntT; FInt 3; FStr "number of threads per GPU for DALI"] |};
    {| arg_name := "--dali-prefetch-queue";
       arg_rest := [FType IntT; FInt 3; FStr "DALI prefetch queue depth"] |};
    {| arg_name := "--dali-nvjpeg-memory-padding";
       arg_rest := [FType IntT; FInt 16; FStr "Memory padding value for nvJPEG (in MB)"] |};
    {| arg_name := "--num_examples";
       arg_rest := [FType IntT; FInt (-1);
                    FStr ("Number of training examples to be used, " ++ dquote ++ "-1"
                          ++ dquote ++ " - the full training set")] |};
    {| arg_name := "--reader_name";
       arg_rest := [FType StrT; FStr ""; FStr "Reader name"] |} ].

(** [list.remove(x)]: drops the first element equal to [x]. *)
Fixpoint list_remove (x : argspec) (l : list argspec) : list argspec :=
  match l with
  | [] => []
  | y :: ys => if decide (x = y) then ys else y :: list_remove x ys
  end.

(** One round of the outer loop: the inner loop scans the current
    defaults, removes the first one that is a synonym of [arg] and
    breaks. *)
Definition drop_default (defaults : list argspec) (arg : argspec) : list argspec :=
  match List.find (fun def_arg => are_synonyms (arg_name def_arg) (arg_name arg)) defaults with
  | Some def_arg => list_remove def_arg defaults
  | None => defaults
  end.

(** [default_args] after the duplicate check. *)
Definition remaining_defaults (task_args : list argspec) : list argspec :=
  fold_left drop_default task_args default_args.

(** The list the two registration loops walk: [task_args], then what is
    left of [default_args]. *)
Definition merged_args (task_args : list argspec) : list argspec :=
  concat [task_args; remaining_defaults task_args].

(** One call of [group.add_argument]. *)
Inductive add_argument_call : Set :=
| AddAction (name : string) (action help : argfield)
| AddTyped (name : string) (type default help : argfield).

Definition call_name (c : add_argument_call) : string :=
  match c with
  | AddAction name _ _ => name
  | AddTyped name _ _ _ => name
  end.

(** The destination that [argparse] derives from a long option string:
    the leading dashes are stripped and the dashes left are turned into
    underscores, so that [--num-examples] and [--num_examples] both
    fill [args.num_examples]. *)
Fixpoint strip_dashes (s : string) : string :=
  match s with
  | String c s' => if Ascii.eqb c "-" then strip_dashes s' else s
  | EmptyString => s
  end.

Fixpoint dashes_to_underscores (s : string) : string :=
  match s with
  | String c s' => String (if Ascii.eqb c "-" then "_"%char else c) (dashes_to_underscores s')
  | EmptyString => s
  end.

Definition dest (option_string : string) : string :=
  dashes_to_underscores (strip_dashes option_string).

Definition call_dest (c : add_argument_call) : string := dest (call_name c).

Definition add_argument (arg : argspec) : result add_argument_call :=
  match arg_rest arg with
  | [action; help] => Ok (AddAction (arg_name arg) action help)
  | type :: default :: help :: _ => Ok (AddTyped (arg_name arg) type default help)
  | _ => Raise IndexError
  end.

(** The calls of [group.add_argument] that [add_dali_pipeline_args]
    makes on the group it creates, in order. *)
Definition add_dali_pipeline_args (task_args : list argspec) : result (list add_argument_call) :=
  mapM add_argument (merged_args task_args).

(** The call with [task_args] as declared, [None] by default: the loop
    of line 62 then iterates over [None].  [Ok] stands for reaching
    line 76 with the calls made; what [argparse] does with the calls and
    in [parse_args()] is its own. *)
Definition add_dali_pipeline_args_call (task_args : option (list argspec))
    : result (list add_argument_call) :=
  match task_args with
  | None => Raise TypeError
  | Some task_args => add_dali_pipeline_args task_args
  end.

(** ** The interpreter and the values of parsed arguments *)

(** What the module takes from the interpreter without defining it: the
    floating-point values, here the type [pyfloat], with the value of a
    float literal and the product of an [int] and a [float], and the
    builtins [float] and [int] on strings. *)
Class PyRuntime (pyfloat : Type) : Type := {
  float_literal : string → pyfloat;
  float_times : Z → pyfloat → pyfloat;
  float_of_str : string → result pyfloat;
  int_of_str : string → result Z
}.

Section Model.
(** [nparray] is the type of NumPy arrays. *)
Context {pyfloat nparray : Type} `{RT : PyRuntime pyfloat}.

(** The values an attribute of the parsed arguments holds: [None], a
    [bool], an [int], a [str], a tuple or a list of integers (an image
    shape, a GPU list), or a list of floats (pixel statistics). *)
Inductive pyval : Type :=
| VNone
| VBool (b : bool)
| VInt (z : Z)
| VStr (s : string)
| VTuple (t : list Z)
| VList (l : list Z)
| VFloats (l : list pyfloat).

(** [bool(v)] *)
Definition truthy (v : pyval) : bool :=
  match v with
  | VNone => false
  | VBool b => b
  | VInt z => negb (z =? 0)
  | VStr s => nonempty s
  | VTuple t => negb (length t =? 0)%nat
  | VList l => negb (length l =? 0)%nat
  | VFloats l => negb (length l =? 0)%nat
  end.

Definition Z_of_bool (b : bool) : Z := if b then 1 else 0.

(** The integer an [int] or [bool] stands for in [//], in [range] and
    in comparisons with an [int]; there the other values raise
    [TypeError].  It also reads the operands of the two products of the
    module (the nvJPEG padding, the step of the synthetic iterator),
    where Python would repeat a string or a list and the consumer of the
    product, a DALI operator or [+=] on an [int], refuses the result. *)
Definition as_int (v : pyval) : result Z :=
  match v with
  | VInt z => Ok z
  | VBool b => Ok (Z_of_bool b)
  | _ => Raise TypeError
  end.

(** [int(v)] *)
Definition py_int (v : pyval) : result Z :=
  match v with
  | VInt z => Ok z
  | VBool b => Ok (Z_of_bool b)
  | VStr s => int_of_str s
  | _ => Raise TypeError
  end.

(** [v == k] for an integer [k] *)
Definition eq_int (v : pyval) (k : Z) : bool :=
  match v with
  | VInt z => z =? k
  | VBool b => Z_of_bool b =? k
  | _ => false
  end.

(** [v == s] for a string [s] *)
Definition eq_str (v : pyval) (s : string) : bool :=
  match v with
  | VStr s' => String.eqb s' s
  | _ => false
  end.

(** [needle in v] for a string [needle] *)
Definition str_in (needle : string) (v : pyval) : result bool :=
  match v with
  | VStr s => Ok (contains needle s)
  | VTuple _ | VList _ | VFloats _ => Ok false
  | _ => Raise TypeError
  end.

(** [v + suffix] for a string [suffix] *)
Definition add_str (v : pyval) (suffix : string) : result pyval :=
  match v with
  | VStr s => Ok (VStr (s ++ suffix))
  | _ => Raise TypeError
  end.

(** The items of a tuple or list, for [len], indexing, slicing and
    iteration. *)
Definition seq_items (v : pyval) : result (list Z) :=
  match v with
  | VTuple t => Ok t
  | VList l => Ok l
  | _ => Raise TypeError
  end.

(** [a // b] *)
Definition floordiv (a b : Z) : result Z :=
  if b =? 0 then Raise ZeroDivisionError else Ok (a / b).

(** [l.index(x)] *)
Fixpoint list_index (x : Z) (l : list Z) : result Z :=
  match l with
  | [] => Raise ValueError
  | y :: ys => if x =? y then Ok 0 else i ← list_index x ys; Ok (1 + i)
  end.

(** [hasattr(args, name)] and [args.name] on a namespace. *)
Definition hasattr (args : gmap string pyval) (name : string) : bool :=
  match args !! name with Some _ => true | None => false end.

Definition getattr (args : gmap string pyval) (name : string) : result pyval :=
  match args !! name with Some v => Ok v | None => Raise AttributeError end.

(** ** Module constants *)

Definition _Reader : string := "Reader".
Definition _mean_pixel : list pyfloat :=
  map (fun x => float_times 255 (float_literal x)) ["0.485"; "0.456"; "0.406"].
Definition _std_pixel : list pyfloat :=
  map (fun x => float_times 255 (float_literal x)) ["0.229"; "0.224"; "0.225"].

(** ** [get_attribute] *)

(** [hasattr(args, name)] where [args] is [None] or a namespace; [None]
    has none of the attributes asked for here. *)
Definition hasattr_opt (args : option (gmap string pyval)) (name : string) : bool :=
  match args with
  | Some ns => hasattr ns name
  | None => false
  end.

(** Under the test, [attr] is bound to the result of a second [hasattr],
    a [bool], and not to the value of the attribute. *)
Definition get_attribute (args : option (gmap string pyval)) (attr_name : string)
    (def_value : pyval) : result pyval :=
  let attr := def_value in
  if hasattr_opt args attr_name then
    let attr := VBool (hasattr_opt args attr_name) in
    match attr with
    | VStr s => l ← mapM float_of_str (split "," s); Ok (VFloats l)
    | _ => Ok attr
    end
  else Ok attr.

(** ** DALI operators, as the constructor arguments they receive *)

Inductive dali_type : Set := FLOAT16 | FLOAT.
Inductive tensor_layout : Set := NCHW | NHWC.
Inductive image_type : Set := RGB.

Record MXNetReader : Type := {
  path : list pyval;
  index_path : list pyval;
  random_shuffle : bool;
  shard_id : Z;
  num_shards : Z
}.

Record RandomCropParams : Type := {
  random_aspect_ratio : list pyfloat;
  random_area : list pyfloat;
  num_attempts : Z
}.

Inductive Decoder : Type :=
| ImageDecoderRandomCrop (device : string) (output_type : image_type)
    (device_memory_padding host_memory_padding : Z) (params : option RandomCropParams)
| ImageDecoder (device : string) (output_type : image_type)
    (device_memory_padding host_memory_padding : Z).

Inductive Resizer : Type :=
| RandomResizedCrop (device : string) (size : list Z)
| Resize (device : string) (resize_x resize_y : Z)
| ResizeShorter (device : string) (resize_shorter : pyval).

Record CropMirrorNormalize : Type := {
  cmnp_device : string;
  cmnp_dtype : dali_type;
  cmnp_output_layout : tensor_layout;
  cmnp_crop : list Z;
  cmnp_pad_output : bool;
  mean : pyval;
  std : pyval
}.

Record CoinFlip : Type := { probability : pyfloat }.

(** ** [ImageReader] *)

Record ImageReader : Type := { input : MXNetReader; reader_name : string }.

Definition ImageReader_init (rec_path idx_path : pyval) (shard_id num_shards : Z)
    (random_shuffle : bool) (reader_name : string) : ImageReader :=
  {| input := {| path := [rec_path]; index_path := [idx_path];
                 random_shuffle := random_shuffle;
                 shard_id := shard_id; num_shards := num_shards |};
     reader_name := if nonempty reader_name then reader_name else _Reader |}.

(** ** [ImageMethods] *)

(** The [random_crop] argument: [None], a [bool], or a tuple or list,
    of which only the length is ever looked at. *)
Inductive RandomCrop : Set :=
| RCNone
| RCBool (b : bool)
| RCSeq (len : nat).

Definition random_crop_truthy (rc : RandomCrop) : bool :=
  match rc with
  | RCNone => false
  | RCBool b => b
  | RCSeq n => negb (n =? 0)%nat
  end.

Record ImageMethods : Type := {
  decode : Decoder;
  resize : option Resizer;
  cmnp : CropMirrorNormalize
}.

(** [dali_cpu] is [None], [True] or [False]. *)
Definition dali_cpu_truthy (dali_cpu : option bool) : bool :=
  match dali_cpu with Some b => b | None => false end.

(** The assignment [len = len(random_crop) if ... else 0] makes [len] a
    local name of [__init__]: the call on its right-hand side, reached for
    a tuple or a list, reads that name before it is bound. *)
Definition random_crop_len (rc : RandomCrop) : result Z :=
  match rc with
  | RCSeq _ => Raise UnboundLocalError
  | _ => Ok 0
  end.

Definition ImageMethods_init (nvjpeg_padding : Z) (crop_shape : list Z)
    (output_layout : tensor_layout) (pad_output : bool) (dtype : pyval)
    (random_crop : RandomCrop) (random_resize : bool)
    (args : option (gmap string pyval)) (dali_cpu : option bool) : result ImageMethods :=
  let dali_device := if dali_cpu_truthy dali_cpu then "cpu" else "gpu" in
  let decoder_device := if dali_cpu_truthy dali_cpu then "cpu" else "mixed" in
  decode ←
    (if random_crop_truthy random_crop then
       match args with
       | None =>
           len ← random_crop_len random_crop;
           (* [len] is 0 here, so the three defaults are taken *)
           if 0 <? len then Raise TypeError
           else Ok (ImageDecoderRandomCrop decoder_device RGB nvjpeg_padding nvjpeg_padding
                      (Some {| random_aspect_ratio := map float_literal ["0.75"; "1.33"];
                               random_area := map float_literal ["0.08"; "1.0"];
                               num_attempts := 10 |}))
       | Some _ =>
           Ok (ImageDecoderRandomCrop decoder_device RGB nvjpeg_padding nvjpeg_padding None)
       end
     else Ok (ImageDecoder decoder_device RGB nvjpeg_padding nvjpeg_padding));
  resize ←
    (if random_resize then Ok (RandomResizedCrop dali_device crop_shape)
     else match crop_shape with
          | x :: y :: _ => Ok (Resize dali_device x y)
          | _ => Raise IndexError
          end);
  rgb_mean ← get_attribute args "rgb_mean" (VFloats _mean_pixel);
  rgb_std ← get_attribute args "rgb_std" (VFloats _std_pixel);
  Ok {| decode := decode;
        resize := Some resize;
        cmnp := {| cmnp_device := "gpu";
                   cmnp_dtype := if eq_str dtype "float16" then FLOAT16 else FLOAT;
                   cmnp_output_layout := output_layout;
                   cmnp_crop := crop_shape;
                   cmnp_pad_output := pad_output;
                   mean := rgb_mean;
                   std := rgb_std |} |}.

(** ** The two pipelines *)

(** What [Pipeline.__init__] receives. *)
Record Pipeline : Type := {
  pipe_batch_size : pyval;
  num_threads : pyval;
  device_id : Z;
  seed : Z;
  prefetch_queue_depth : pyval
}.

Record HybridTrainPipe : Type := {
  train_pipeline : Pipeline;
  train_reader : ImageReader;
  train_methods : ImageMethods;
  coin : CoinFlip
}.

Definition HybridTrainPipe_init (batch_size num_threads : pyval) (device_id : Z)
    (rec_path idx_path : pyval) (shard_id num_shards : Z) (crop_shape : list Z)
    (nvjpeg_padding : Z) (prefetch_queue : pyval) (output_layout : tensor_layout)
    (pad_output : bool) (dtype : pyval) (args : option (gmap string pyval))
    (dali_cpu : option bool) (reader_name : string) (random_crop : RandomCrop)
    (random_resize : bool) : result HybridTrainPipe :=
  let base := {| pipe_batch_size := batch_size; num_threads := num_threads;
                 device_id := device_id; seed := 12 + device_id;
                 prefetch_queue_depth := prefetch_queue |} in
  let reader := ImageReader_init rec_path idx_path shard_id num_shards true reader_name in
  methods ← ImageMethods_init nvjpeg_padding crop_shape output_layout pad_output dtype
              random_crop random_resize args dali_cpu;
  Ok {| train_pipeline := base; train_reader := reader; train_methods := methods;
        coin := {| probability := float_literal "0.5" |} |}.

Record HybridValPipe : Type := {
  val_pipeline : Pipeline;
  val_reader : ImageReader;
  val_methods : ImageMethods
}.

Definition HybridValPipe_init (batch_size num_threads : pyval) (device_id : Z)
    (rec_path idx_path : pyval) (shard_id num_shards : Z) (crop_shape : list Z)
    (nvjpeg_padding : Z) (prefetch_queue : pyval) (resize_shp : pyval)
    (output_layout : tensor_layout) (pad_output : bool) (dtype : pyval)
    (random_resize : bool) (args : option (gmap string pyval))
    (dali_cpu : option bool) (reader_name : string) : result HybridValPipe :=
  let base := {| pipe_batch_size := batch_size; num_threads := num_threads;
                 device_id := device_id; seed := 12 + device_id;
                 prefetch_queue_depth := prefetch_queue |} in
  let reader := ImageReader_init rec_path idx_path shard_id num_shards false reader_name in
  methods ← ImageMethods_init nvjpeg_padding crop_shape output_layout pad_output dtype
              RCNone random_resize args dali_cpu;
  Ok {| val_pipeline := base; val_reader := reader;
        val_methods :=
          {| decode := decode methods;
             resize := if truthy resize_shp then Some (ResizeShorter "gpu" resize_shp)
                       else None;
             cmnp := cmnp methods |} |}.

(** ** The libraries around one call: Horovod, NumPy's generator, DALI

    The operators of DALI and the two pipelines are known by the
    arguments they are constructed with; their constructors, [build()]
    and [DALIClassificationIterator] are taken to return. *)

Record KVStore : Set := { kv_rank : Z; kv_num_workers : Z }.

Record World : Type := {
  hvd_local_rank : Z;
  hvd_rank : Z;
  hvd_size : Z;
  (** [np.random.randint(low, high, size)] and
      [np.random.uniform(low, high, size)]: the array drawn, or the
      exception NumPy raises for the shape. *)
  np_random_randint : Z → Z → list pyval → result nparray;
  np_random_uniform : Z → Z → list pyval → result nparray;
  (** [pipe.epoch_size(name)] of a built pipeline. *)
  train_pipe_epoch_size : HybridTrainPipe → string → Z;
  val_pipe_epoch_size : HybridValPipe → string → Z
}.

(** ** [SyntheticDataIter] *)

Inductive Context : Set := gpu (i : Z) | cpu_pinned (i : Z).

(** [mx.nd.array(source, dtype=..., ctx=...)] *)
Record NDArray : Type := { nd_source : nparray; nd_dtype : pyval; nd_ctx : Context }.

Record DataBatch : Type := {
  batch_data : list NDArray;
  batch_label : list NDArray;
  pad : Z
}.

Record SyntheticDataIter : Type := {
  batch_size : pyval;
  cur_sample : Z;
  epoch_size : pyval;
  dtype : pyval;
  gpus : list Z;
  _num_gpus : Z;
  data_shape : list pyval;
  layout : pyval;
  data : list NDArray;
  label : list NDArray
}.

(** [np.float32], the dtype of the labels. *)
Definition np_float32 : pyval := VStr "float32".

Definition SyntheticDataIter_init (W : World) (num_classes : Z) (data_shape : list pyval)
    (epoch_size dtype gpus layout : pyval) : result SyntheticDataIter :=
  batch_size ← match data_shape with b :: _ => Ok b | [] => Raise IndexError end;
  gpu_list ← seq_items gpus;
  label ← np_random_randint W 0 num_classes [batch_size];
  data ← np_random_uniform W (-1) 1 data_shape;
  Ok {| batch_size := batch_size;
        cur_sample := 0;
        epoch_size := epoch_size;
        dtype := dtype;
        gpus := gpu_list;
        _num_gpus := Z.of_nat (length gpu_list);
        data_shape := data_shape;
        layout := layout;
        data := map (fun i => {| nd_source := data; nd_dtype := dtype; nd_ctx := gpu i |})
                    gpu_list;
        label := map (fun _ => {| nd_source := label; nd_dtype := np_float32;
                                   nd_ctx := cpu_pinned 0 |}) gpu_list |}.

Definition set_cur_sample (self : SyntheticDataIter) (n : Z) : SyntheticDataIter :=
  {| batch_size := batch_size self;
     cur_sample := n;
     epoch_size := epoch_size self;
     dtype := dtype self;
     gpus := gpus self;
     _num_gpus := _num_gpus self;
     data_shape := data_shape self;
     layout := layout self;
     data := data self;
     label := label self |}.

(** The list [next] returns: one [DataBatch] per device. *)
Definition batches (self : SyntheticDataIter) : list DataBatch :=
  map (fun dl => {| batch_data := [fst dl]; batch_label := [snd dl]; pad := 0 |})
      (combine (data self) (label self)).

(** [next(self)]: the value returned or the exception raised, and the
    iterator afterwards. *)
Definition next (self : SyntheticDataIter) : result (list DataBatch) * SyntheticDataIter :=
  match as_int (epoch_size self) with
  | Raise e => (Raise e, self)
  | Ok budget =>
      if cur_sample self <=? budget then
        match as_int (batch_size self) with
        | Raise e => (Raise e, self)
        | Ok b =>
            let self' := set_cur_sample self (cur_sample self + b * _num_gpus self) in
            (Ok (batches self'), self')
        end
      else (Raise StopIteration, self)
  end.

Definition reset (self : SyntheticDataIter) : SyntheticDataIter :=
  set_cur_sample self 0.

(** [n] calls of [next] in a row: the results in call order and the
    iterator after the last one. *)
Fixpoint next_n (n : nat) (self : SyntheticDataIter)
    : list (result (list DataBatch)) * SyntheticDataIter :=
  match n with
  | O => ([], self)
  | S n' =>
      let '(r, self') := next self in
      let '(rs, self'') := next_n n' self' in
      (r :: rs, self'')
  end.

(** ** [get_rec_pipeline_iter] *)

(** [DALIClassificationIterator(pipelines, size, reader_name,
    fill_last_batch=...)], as the arguments it receives;
    [fill_last_batch] is [None] where the call leaves it out. *)
Record DALIClassificationIterator (P : Type) : Type := {
  pipelines : list P;
  dali_size : Z;
  dali_reader_name : option string;
  fill_last_batch : option bool
}.
Arguments pipelines {P} _.
Arguments dali_size {P} _.
Arguments dali_reader_name {P} _.
Arguments fill_last_batch {P} _.

(** The warning of line 352, with the two numbers its text is formatted
    from. *)
Inductive UserWarning : Set :=
| TrainingExamplesWarning (num_examples full_training_set : Z).

Inductive TrainIter : Type :=
| SyntheticTrain (it : SyntheticDataIter)
| DALITrain (it : DALIClassificationIterator HybridTrainPipe).

(** Lines 254-256. *)
Definition target_shape_of (args : gmap string pyval) : result pyval :=
  target_shape ← getattr args "image_shape";
  match target_shape with
  | VStr s => t ← mapM int_of_str (split "," s); Ok (VTuple t)
  | _ => Ok target_shape
  end.

(** [range(n)] *)
Definition range (n : Z) : list Z := seqZ 0 n.

(** Lines 258-263. *)
Definition gpus_of (W : World) (args : gmap string pyval) : result pyval :=
  if hasattr args "gpus" then
    gpus ← getattr args "gpus";
    match gpus with
    | VStr s => l ← mapM int_of_str (List.filter nonempty (split "," s)); Ok (VList l)
    | _ => Ok gpus
    end
  else
    kvstore ← getattr args "kvstore";
    horovod ← str_in "horovod" kvstore;
    if (horovod : bool) then Ok (VList [hvd_local_rank W])
    else n_GPUs ← getattr args "n_GPUs"; n ← as_int n_GPUs; Ok (VList (range n)).

(** Line 266: ['synthetic' in args and args.synthetic == 1]. *)
Definition synthetic_flag (args : gmap string pyval) : bool :=
  match args !! "synthetic" with
  | Some v => eq_int v 1
  | None => false
  end.

(** Lines 268-270. *)
Definition synthetic_iter (W : World) (args : gmap string pyval)
    (target_shape gpus batch_size : pyval) : result SyntheticDataIter :=
  input_layout ← getattr args "input_layout";
  target_shape ←
    (if eq_str input_layout "NHWC" then
       match target_shape with
       | VTuple t => Ok (VTuple (drop 1 t ++ take 1 t))
       | VList l => Ok (VList (drop 1 l ++ take 1 l))
       | _ => Raise TypeError
       end
     else Ok target_shape);
  data_shape ←
    match target_shape with
    | VTuple t => Ok (batch_size :: map VInt t)
    | _ => Raise TypeError
    end;
  num_examples ← getattr args "num_examples";
  dtype ← getattr args "dtype";
  layout ← getattr args "input_layout";
  SyntheticDataIter_init W 1000 data_shape num_examples dtype gpus layout.

(** Lines 281-286: the rank of this worker and the number of workers. *)
Definition workers_of (W : World) (args : gmap string pyval) (kv : option KVStore)
    : result (Z * Z) :=
  kvstore ← (if hasattr args "kvstore" then getattr args "kvstore"
             else getattr args "kv_store");
  horovod ← str_in "horovod" kvstore;
  if (horovod : bool) then Ok (hvd_rank W, hvd_size W)
  else Ok (match kv with Some k => kv_rank k | None => 0 end,
           match kv with Some k => kv_num_workers k | None => 1 end).

(** Lines 290 and 356: [args.reader_name] when [reade_flg] holds, else
    [None]. *)
Definition reader_of (args : gmap string pyval) : option string :=
  match args !! "reader_name" with
  | Some (VStr s) => if nonempty s then Some s else None
  | _ => None
  end.

(** Lines 293-294 and 321-322: an explicit path, or the name under
    [args.data_dir]. *)
Definition path_of (args : gmap string pyval) (attr suffix : string) : result pyval :=
  if hasattr args attr then getattr args attr
  else data_dir ← getattr args "data_dir"; add_str data_dir suffix.

(** Lines 305 and 334: [gpus.index(gpu_id) + len(gpus)*rank]. *)
Definition shard_of (gpus : list Z) (rank gpu_id : Z) : result Z :=
  i ← list_index gpu_id gpus; Ok (i + Z.of_nat (length gpus) * rank).

(** Lines 300-317. *)
Definition trainpipes_of (args : gmap string pyval) (batch_size num_threads : pyval)
    (rec_path idx_path : pyval) (gpus : list Z) (rank num_shards : Z) (shape : list Z)
    (output_layout : tensor_layout) (pad_output : bool) (nvjpeg_padding : Z)
    (dali_cpu : option bool) (random_crop : RandomCrop) (prop_args : bool)
    (reader_name : string) : result (list HybridTrainPipe) :=
  mapM (fun gpu_id =>
          shard_id ← shard_of gpus rank gpu_id;
          dtype ← getattr args "dtype";
          prefetch_queue ← getattr args "dali_prefetch_queue";
          HybridTrainPipe_init batch_size num_threads gpu_id rec_path idx_path
            shard_id num_shards (drop 1 shape) nvjpeg_padding prefetch_queue
            output_layout pad_output dtype (if prop_args then Some args else None)
            dali_cpu reader_name random_crop (negb (random_crop_truthy random_crop)))
       gpus.

(** Line 319. *)
Definition val_flg_of (args : gmap string pyval) : bool :=
  match args !! "data_val" with
  | Some VNone => false
  | Some _ => true
  | None => false
  end
  && negb match args !! "no_val" with
          | Some no_val => truthy no_val
          | None => false
          end.

(** Line 323. *)
Definition separ_val_flag_of (args : gmap string pyval) : bool :=
  hasattr args "dali_separ_val" || hasattr args "separ_val".

(** Lines 329-346. *)
Definition valpipes_of (args : gmap string pyval) (batch_size num_validation_threads : pyval)
    (rec_path idx_path : pyval) (gpus : list Z) (rank num_shards : Z) (shape : list Z)
    (resize_shp : pyval) (output_layout : tensor_layout) (pad_output : bool)
    (nvjpeg_padding : Z) (dali_cpu : option bool) (prop_args : bool)
    (reader_name : string) (separ_val_flag : bool) : result (list HybridValPipe) :=
  mapM (fun gpu_id =>
          shard_id ← (if separ_val_flag then Ok 0 else shard_of gpus rank gpu_id);
          dtype ← getattr args "dtype";
          prefetch_queue ← getattr args "dali_prefetch_queue";
          HybridValPipe_init batch_size num_validation_threads gpu_id rec_path idx_path
            shard_id (if separ_val_flag then 1 else num_shards) (drop 1 shape)
            nvjpeg_padding prefetch_queue resize_shp output_layout pad_output dtype
            (match dali_cpu with None => true | Some _ => false end)
            (if prop_args then Some args else None) dali_cpu reader_name)
       gpus.

(** The local variables that lines 351-368 read once the pipelines are
    built: [trainpipe0] and [valpipe0] are [trainpipes[0]] and
    [valpipes[0]]; [built_val] is [None] when [val_flg] is false. *)
Record ValBuilt : Type := {
  separ_val_flag : bool;
  valpipes : list HybridValPipe;
  valpipe0 : HybridValPipe
}.

Record Built : Type := {
  built_rank : Z;
  built_nWrk : Z;
  built_reader_name : string;
  trainpipes : list HybridTrainPipe;
  trainpipe0 : HybridTrainPipe;
  built_val : option ValBuilt
}.

(** Lines 320-349, under [val_flg]. *)
Definition build_val (args : gmap string pyval) (batch_size num_validation_threads : pyval)
    (gpus : list Z) (rank num_shards : Z) (shape : list Z) (output_layout : tensor_layout)
    (pad_output : bool) (nvjpeg_padding : Z) (dali_cpu : option bool) (prop_args : bool)
    (reader_name : string) : result (list HybridValPipe * bool) :=
  rec_path ← path_of args "data_val" "/val.rec";
  idx_path ← path_of args "data_val_idx" "/val.idx";
  let separ_val_flag := separ_val_flag_of args in
  resize_shp ←
    (if hasattr args "resize" then
       r ← getattr args "resize"; z ← py_int r; Ok (VInt z)
     else getattr args "data_val_resize");
  valpipes ← valpipes_of args batch_size num_validation_threads rec_path idx_path gpus
               rank num_shards shape resize_shp output_layout pad_output nvjpeg_padding
               dali_cpu prop_args reader_name separ_val_flag;
  Ok (valpipes, separ_val_flag).

(** Lines 273-349: the DALI pipelines, up to and including the two
    [build()] calls on [trainpipes[0]] and [valpipes[0]]. *)
Definition build_pipes (W : World) (args : gmap string pyval) (kv : option KVStore)
    (dali_cpu : option bool) (random_crop : RandomCrop) (prop_args : bool)
    (target_shape gpus batch_size : pyval) : result Built :=
  shape ← seq_items target_shape;
  pad_output ← match shape with c :: _ => Ok (c =? 4) | [] => Raise IndexError end;
  num_threads ← getattr args "dali_threads";
  num_validation_threads ←
    (if hasattr args "dali_validation_threads" then getattr args "dali_validation_threads"
     else Ok num_threads);
  input_layout ← getattr args "input_layout";
  let output_layout := if eq_str input_layout "NHWC" then NHWC else NCHW in
  '(rank, nWrk) ← workers_of W args kv;
  gpu_list ← seq_items gpus;
  let num_shards := Z.of_nat (length gpu_list) * nWrk in
  let reader_name := match reader_of args with Some s => s | None => _Reader end in
  rec_path ← path_of args "data_train" "/train.rec";
  idx_path ← path_of args "data_train_idx" "/train.idx";
  batch_size ←
    (if negb (dali_cpu_truthy dali_cpu) then
       b ← as_int batch_size;
       per_worker ← floordiv b nWrk;
       per_gpu ← floordiv per_worker (Z.of_nat (length gpu_list));
       Ok (VInt per_gpu)
     else Ok batch_size);
  padding ← getattr args "dali_nvjpeg_memory_padding";
  padding ← as_int padding;
  let nvjpeg_padding := padding * 1024 * 1024 in
  trainpipes ← trainpipes_of args batch_size num_threads rec_path idx_path gpu_list rank
                 num_shards shape output_layout pad_output nvjpeg_padding dali_cpu
                 random_crop prop_args reader_name;
  val ←
    (if val_flg_of args then
       v ← build_val args batch_size num_validation_threads gpu_list rank num_shards shape
             output_layout pad_output nvjpeg_padding dali_cpu prop_args reader_name;
       Ok (Some v)
     else Ok None);
  trainpipe0 ← match trainpipes with p :: _ => Ok p | [] => Raise IndexError end;
  val ←
    match val with
    | Some (valpipes, separ_val_flag) =>
        match valpipes with
        | p :: _ => Ok (Some {| separ_val_flag := separ_val_flag; valpipes := valpipes;
                                valpipe0 := p |})
        | [] => Raise IndexError
        end
    | None => Ok None
    end;
  Ok {| built_rank := rank; built_nWrk := nWrk; built_reader_name := reader_name;
        trainpipes := trainpipes; trainpipe0 := trainpipe0; built_val := val |}.

(** Lines 351-353: the warnings issued. *)
Definition check_num_examples (W : World) (args : gmap string pyval) (b : Built)
    : result (list UserWarning) :=
  num_examples ← getattr args "num_examples";
  n ← as_int num_examples;
  let full := train_pipe_epoch_size W (trainpipe0 b) (built_reader_name b) in
  Ok (if n <? full then [TrainingExamplesWarning n full] else []).

(** Lines 360-364: the size handed to the validation iterator when no
    reader name is given. *)
Definition val_size_of (W : World) (b : Built) (v : ValBuilt) : result Z :=
  let val_size := val_pipe_epoch_size W (valpipe0 v) (built_reader_name b) in
  if separ_val_flag v then Ok val_size
  else
    val_size ← floordiv val_size (built_nWrk b);
    Ok (if built_rank b <? val_pipe_epoch_size W (valpipe0 v) (built_reader_name b)
        then val_size + 1 else val_size).

(** Lines 355-368. *)
Definition make_iters (W : World) (args : gmap string pyval) (b : Built)
    : result (TrainIter * option (DALIClassificationIterator HybridValPipe)) :=
  let reader := reader_of args in
  '(train_size, val_size) ←
    match reader with
    | None =>
        num_examples ← getattr args "num_examples";
        n ← as_int num_examples;
        train_size ← floordiv n (built_nWrk b);
        val_size ← match built_val b with
                   | Some v => val_size_of W b v
                   | None => Ok (-1)
                   end;
        Ok (train_size, val_size)
    | Some _ => Ok (-1, -1)
    end;
  Ok (DALITrain {| pipelines := trainpipes b; dali_size := train_size;
                   dali_reader_name := reader; fill_last_batch := None |},
      match built_val b with
      | Some v => Some {| pipelines := valpipes v; dali_size := val_size;
                          dali_reader_name := reader; fill_last_batch := Some false |}
      | None => None
      end).

(** Lines 254-265: [target_shape], [gpus] and [batch_size]. *)
Definition read_inputs (W : World) (args : gmap string pyval)
    : result (pyval * pyval * pyval) :=
  target_shape ← target_shape_of args;
  gpus ← gpus_of W args;
  batch_size ← getattr args "batch_size";
  Ok (target_shape, gpus, batch_size).

(** [get_rec_pipeline_iter(args, kv, dali_cpu, random_crop, prop_args)]:
    the warnings issued, and the pair returned or the exception raised. *)
Definition get_rec_pipeline_iter (W : World) (args : gmap string pyval)
    (kv : option KVStore) (dali_cpu : option bool) (random_crop : RandomCrop)
    (prop_args : bool)
    : list UserWarning * result (TrainIter * option (DALIClassificationIterator HybridValPipe)) :=
  match read_inputs W args with
  | Raise e => ([], Raise e)
  | Ok (target_shape, gpus, batch_size) =>
      if synthetic_flag args then
        ([], train ← synthetic_iter W args target_shape gpus batch_size;
             Ok (SyntheticTrain train, None))
      else
        match build_pipes W args kv dali_cpu random_crop prop_args
                target_shape gpus batch_size with
        | Raise e => ([], Raise e)
        | Ok b =>
            match check_num_examples W args b with
            | Raise e => ([], Raise e)
            | Ok warnings => (warnings, make_iters W args b)
            end
        end
  end.

(** The size handed to the validation iterator of the worker with rank
    [rank] among [nWrk] workers of a key-value store. *)
Definition worker_val_size (W : World) (args : gmap string pyval) (nWrk rank : Z)
    : option Z :=
  match snd (get_rec_pipeline_iter W args
               (Some {| kv_rank := rank; kv_num_workers := nWrk |})
               None (RCBool true) false) with
  | Ok (_, Some val) => Some (dali_size val)
  | _ => None
  end.

(** The shard ids of the training pipelines of an iterator, in GPU
    order. *)
Definition train_shard_ids (it : DALIClassificationIterator HybridTrainPipe) : list Z :=
  map (fun p => shard_id (input (train_reader p))) (pipelines it).

End Model.

Arguments pipelines {P} _.
Arguments dali_size {P} _.
Arguments dali_reader_name {P} _.
Arguments fill_last_batch {P} _.

(** ** A runtime to run the model on

    Floats are exact decimal fractions, [int] and [float] read plain
    decimal text, and an array is known by its shape and the one value
    that fills it. *)

Definition digit_of (c : ascii) : option Z :=
  let n := Z.of_nat (nat_of_ascii c) in
  if (48 <=? n) && (n <=? 57) then Some (n - 48) else None.

Fixpoint digits (s : string) (acc : Z) : option Z :=
  match s with
  | EmptyString => Some acc
  | String c s' => d ← digit_of c; digits s' (10 * acc + d)
  end.

Definition unsigned_of_str (s : string) : option Z :=
  match s with
  | EmptyString => None
  | _ => digits s 0
  end.

Definition signed (s : string) : bool * string :=
  match s with
  | String c s' =>
      if Ascii.eqb c "-" then (true, s')
      else if Ascii.eqb c "+" then (false, s')
      else (false, s)
  | EmptyString => (false, s)
  end.

Definition decimal_int (s : string) : result Z :=
  let '(neg, body) := signed s in
  match unsigned_of_str body with
  | Some z => Ok (if neg then - z else z)
  | None => Raise ValueError
  end.

Definition decimal_float (s : string) : result Q :=
  let '(neg, body) := signed s in
  let sign (q : Q) := if neg then Qopp q else q in
  match split "." body with
  | [i] =>
      match unsigned_of_str i with
      | Some a => Ok (sign (Qmake a 1))
      | None => Raise ValueError
      end
  | [i; f] =>
      match unsigned_of_str i, unsigned_of_str f with
      | Some a, Some b =>
          let scale := 10 ^ Z.of_nat (String.length f) in
          Ok (sign (Qmake (a * scale + b) (Z.to_pos scale)))
      | _, _ => Raise ValueError
      end
  | _ => Raise ValueError
  end.

Record filled_array : Set := { arr_shape : list Z; arr_fill : Z }.

Definition decimal_runtime : PyRuntime Q :=
  {| float_literal := fun s => match decimal_float s with Ok q => q | Raise _ => 0%Q end;
     float_times := fun k q => Qred (Qmult (inject_Z k) q);
     float_of_str := decimal_float;
     int_of_str := decimal_int |}.

(** A draw of the generator: for a shape of non-negative integers, the
    array of that shape filled with [low]. *)
Definition constant_draw (low high : Z) (shape : list (@pyval Q))
    : result filled_array :=
  dims ← mapM as_int shape;
  if forallb (fun d => 0 <=? d) dims then Ok {| arr_shape := dims; arr_fill := low |}
  else Raise ValueError.

(** A single process outside Horovod whose training and validation
    record files hold [train_size] and [val_size] examples. *)
Definition local_world (train_size val_size : Z) : @World Q filled_array :=
  {| hvd_local_rank := 0;
     hvd_rank := 0;
     hvd_size := 1;
     np_random_randint := constant_draw;
     np_random_uniform := constant_draw;
     train_pipe_epoch_size := fun _ _ => train_size;
     val_pipe_epoch_size := fun _ _ => val_size |}.

(** Parsed arguments of a DALI run on two GPUs with a validation set. *)
Definition dali_args : gmap string (@pyval Q) :=
  list_to_map
    [("image_shape", VStr "3,224,224"); ("gpus", VStr "0,1"); ("batch_size", VInt 128);
     ("dali_threads", VInt 3); ("dali_prefetch_queue", VInt 3);
     ("dali_nvjpeg_memory_padding", VInt 16); ("input_layout", VStr "NCHW");
     ("kvstore", VStr "device"); ("dtype", VStr "float16");
     ("data_train", VStr "train.rec"); ("data_train_idx", VStr "train.idx");
     ("data_val", VStr "val.rec"); ("data_val_idx", VStr "val.idx");
     ("data_val_resize", VInt 256); ("num_examples", VInt 1000);
     ("reader_name", VStr "")].

(** Parsed arguments of the synthetic run of the specification: 100
    examples, batches of 10, one GPU, no distributed backend. *)
Definition synthetic_args : gmap string (@pyval Q) :=
  list_to_map
    [("image_shape", VStr "3,224,224"); ("gpus", VStr "0"); ("batch_size", VInt 10);
     ("synthetic", VInt 1); ("input_layout", VStr "NCHW"); ("kvstore", VStr "device");
     ("dtype", VStr "float32"); ("num_examples", VInt 100)].

(** * Properties *)

(** ** Results *)

Lemma bind_Ok {A B} (m : result A) (f : A → result B) (b : B) :
  m ≫= f = Ok b → ∃ a, m = Ok a ∧ f a = Ok b.
Proof. destruct m as [a|e]; simpl; [eauto | discriminate]. Qed.

Lemma mapM_Ok {A B} (f : A → result B) (l : list A) (ys : list B) :
  mapM f l = Ok ys → Forall2 (fun x y => f x = Ok y) l ys.
Proof.
  revert ys. induction l as [|x xs IH]; intros ys H; simpl in H.
  - injection H as <-. constructor.
  - apply bind_Ok in H as (y & Hy & H).
    apply bind_Ok in H as (ys' & Hys & H).
    injection H as <-. constructor; auto.
Qed.

Lemma mapM_Ok_map {A B} (f : A → result B) (g : A → B) (l : list A) :
  (∀ x, In x l → f x = Ok (g x)) → mapM f l = Ok (map g l).
Proof.
  induction l as [|x xs IH]; intros H; simpl; [reflexivity|].
  rewrite (H x) by (left; reflexivity). simpl.
  rewrite IH by (intros y Hy; apply H; right; exact Hy). reflexivity.
Qed.

(** ** The argument merge *)

Definition synonym_of (arg : argspec) (def_arg : argspec) : bool :=
  are_synonyms (arg_name def_arg) (arg_name arg).

(** [shadowed task_args d]: some caller option is a synonym of the
    default [d]. *)
Definition shadowed (task_args : list argspec) (d : argspec) : bool :=
  existsb (fun arg => synonym_of arg d) task_args.

(** At most one element of [l] is a synonym of any given name. *)
Definition single_match (l : list argspec) : Prop :=
  ∀ arg, (length (List.filter (synonym_of arg) l) ≤ 1)%nat.

Lemma are_synonyms_refl (n : string) : are_synonyms n n = true.
Proof. unfold are_synonyms. now rewrite String.eqb_refl. Qed.

Lemma filter_none_id {A} (f : A → bool) (l : list A) :
  List.filter f l = [] → List.filter (fun x => negb (f x)) l = l.
Proof.
  induction l as [|x xs IH]; simpl; [reflexivity|].
  destruct (f x); simpl; [discriminate|]. intros H. f_equal. auto.
Qed.

Lemma find_none_filter {A} (f : A → bool) (l : list A) :
  List.find f l = None → List.filter f l = [].
Proof.
  induction l as [|x xs IH]; simpl; [reflexivity|].
  destruct (f x); [discriminate | exact IH].
Qed.

Lemma single_match_tail (d : argspec) (l : list argspec) :
  single_match (d :: l) → single_match l.
Proof.
  intros H arg. specialize (H arg). simpl in H.
  destruct (synonym_of arg d); simpl in H; lia.
Qed.

(** On a list where a name matches at most once, one round of the
    duplicate check is a filter. *)
Lemma drop_default_filter (l : list argspec) (arg : argspec) :
  (length (List.filter (synonym_of arg) l) ≤ 1)%nat →
  drop_default l arg = List.filter (fun d => negb (synonym_of arg d)) l.
Proof.
  unfold drop_default. fold (synonym_of arg).
  induction l as [|d ds IH]; simpl; [reflexivity|].
  destruct (synonym_of arg d) eqn:Hd; simpl; intros Hlen.
  - destruct (decide (d = d)) as [_|Hne]; [|congruence].
    symmetry. apply filter_none_id.
    destruct (List.filter (synonym_of arg) ds); [reflexivity | simpl in Hlen; lia].
  - specialize (IH Hlen).
    destruct (List.find (synonym_of arg) ds) as [e|] eqn:Hfind.
    + destruct (decide (e = d)) as [->|Hne].
      * apply find_some in Hfind as [_ He]. congruence.
      * f_equal. exact IH.
    + f_equal. exact IH.
Qed.

Lemma single_match_filter (f : argspec → bool) (l : list argspec) :
  single_match l → single_match (List.filter f l).
Proof.
  intros H arg. specialize (H arg).
  enough (length (List.filter (synonym_of arg) (List.filter f l))
          ≤ length (List.filter (synonym_of arg) l))%nat by lia.
  clear H. induction l as [|d ds IH]; simpl; [lia|].
  destruct (f d); simpl; destruct (synonym_of arg d); simpl; lia.
Qed.

Lemma fold_drop_default_filter (task_args l : list argspec) :
  single_match l →
  fold_left drop_default task_args l = List.filter (fun d => negb (shadowed task_args d)) l.
Proof.
  revert l. induction task_args as [|arg rest IH]; intros l Hl; simpl.
  - induction l as [|d ds IHl]; simpl; [reflexivity|]. f_equal.
    apply IHl. eapply single_match_tail, Hl.
  - rewrite drop_default_filter by apply Hl.
    rewrite IH by (apply single_match_filter, Hl).
    clear. induction l as [|d ds IHl]; simpl; [reflexivity|].
    destruct (synonym_of arg d); simpl; [exact IHl|].
    destruct (shadowed rest d); simpl; [exact IHl | f_equal; exact IHl].
Qed.

(** Only the first entry of [synonyms_list] has synonyms. *)
Lemma are_synonyms_plain (nameA nameB : string) :
  String.eqb "--separ-val" nameA = false →
  are_synonyms nameA nameB = String.eqb nameA nameB.
Proof.
  unfold are_synonyms, synonyms_list, synonyms_lookup. cbn [fst snd].
  intros ->. now destruct (String.eqb nameA nameB).
Qed.

Lemma default_args_single_match : single_match default_args.
Proof.
  intros [n rest]. unfold default_args, synonym_of.
  cbn [List.filter arg_name].
  rewrite (are_synonyms_plain "--dali-threads") by reflexivity.
  rewrite (are_synonyms_plain "--dali-prefetch-queue") by reflexivity.
  rewrite (are_synonyms_plain "--dali-nvjpeg-memory-padding") by reflexivity.
  rewrite (are_synonyms_plain "--num_examples") by reflexivity.
  rewrite (are_synonyms_plain "--reader_name") by reflexivity.
  destruct (String.eqb_spec "--dali-threads" n) as [<-|_]; [vm_compute; lia|].
  destruct (String.eqb_spec "--dali-prefetch-queue" n) as [<-|_]; [vm_compute; lia|].
  destruct (String.eqb_spec "--dali-nvjpeg-memory-padding" n) as [<-|_]; [vm_compute; lia|].
  destruct (String.eqb_spec "--num_examples" n) as [<-|_]; [vm_compute; lia|].
  destruct (String.eqb_spec "--reader_name" n) as [<-|_]; [vm_compute; lia|].
  destruct (are_synonyms "--separ-val" n); simpl; lia.
Qed.

(** The defaults that survive are those no caller option shadows. *)
Lemma remaining_defaults_filter (task_args : list argspec) :
  remaining_defaults task_args
  = List.filter (fun d => negb (shadowed task_args d)) default_args.
Proof. apply fold_drop_default_filter, default_args_single_match. Qed.

Lemma add_argument_name (arg : argspec) (call : add_argument_call) :
  add_argument arg = Ok call → call_name call = arg_name arg.
Proof.
  unfold add_argument.
  destruct (arg_rest arg) as [|x1 [|x2 [|x3 xs]]]; intros H; try discriminate;
    injection H as <-; reflexivity.
Qed.

Lemma remaining_defaults_unshadowed (task_args : list argspec) (s a : argspec) :
  s ∈ remaining_defaults task_args → a ∈ task_args →
  are_synonyms (arg_name s) (arg_name a) = false.
Proof.
  rewrite remaining_defaults_filter, !list_elem_of_In, filter_In.
  intros [_ Hs] Ha. apply negb_true_iff in Hs.
  destruct (are_synonyms (arg_name s) (arg_name a)) eqn:E; [|reflexivity].
  assert (shadowed task_args s = true) as Hsh; [|congruence].
  apply existsb_exists. exists a. split; [exact Ha | exact E].
Qed.

(** The calls made are the caller's options in order, followed by the
    surviving defaults. *)
Lemma add_dali_pipeline_args_calls (task_args : list argspec)
    (calls : list add_argument_call) :
  add_dali_pipeline_args task_args = Ok calls →
  Forall2 (fun arg call => add_argument arg = Ok call)
          (task_args ++ remaining_defaults task_args) calls.
Proof.
  unfold add_dali_pipeline_args, merged_args. simpl. rewrite app_nil_r.
  apply mapM_Ok.
Qed.

(** C5, amended. The duplicate check compares option strings, not
    destinations.  When a caller option [c] has the option string of a
    default option [d], or one that the synonym table relates to it,
    the calls that [add_dali_pipeline_args] makes register the caller's
    [c], no surviving default has a synonym among the caller's option
    strings (so [d] is gone), every registered option named like [c] or
    like [d] stands among the caller's, and there is exactly one option
    named like [c] when the caller's option strings are pairwise
    distinct, as [argparse] requires of the option strings it is
    given. *)
Theorem merge_caller_wins (task_args : list argspec) (calls : list add_argument_call)
    (c d : argspec) :
  add_dali_pipeline_args task_args = Ok calls →
  c ∈ task_args → d ∈ default_args →
  are_synonyms (arg_name d) (arg_name c) = true →
  (∀ s a, s ∈ remaining_defaults task_args → a ∈ task_args →
          are_synonyms (arg_name s) (arg_name a) = false)
  ∧ (d ∉ remaining_defaults task_args)
  ∧ (∀ j call, calls !! j = Some call →
               call_name call = arg_name c ∨ call_name call = arg_name d →
               (j < length task_args)%nat)
  ∧ (∃ i call, task_args !! i = Some c ∧ calls !! i = Some call
               ∧ add_argument c = Ok call
               ∧ (NoDup (arg_name <$> task_args) →
                  ∀ j call', calls !! j = Some call' →
                             call_name call' = arg_name c → j = i)).
Proof.
  intros Hcalls Hc Hd Hsyn.
  pose proof (add_dali_pipeline_args_calls _ _ Hcalls) as Hall.
  assert (∀ s a, s ∈ remaining_defaults task_args → a ∈ task_args →
                 are_synonyms (arg_name s) (arg_name a) = false) as Hun
    by (intros s a; apply remaining_defaults_unshadowed).
  assert (∀ j call, calls !! j = Some call →
                    call_name call = arg_name c ∨ call_name call = arg_name d →
                    (j < length task_args)%nat) as Hcaller.
  { intros j call Hj Hname.
    destruct (decide (j < length task_args)%nat) as [|Hge]; [assumption|].
    destruct (Forall2_lookup_r _ _ _ _ _ Hall Hj) as (s & Hs & Hadd).
    rewrite lookup_app_r in Hs by lia.
    apply list_elem_of_lookup_2 in Hs.
    apply add_argument_name in Hadd.
    specialize (Hun s c Hs Hc).
    destruct Hname as [E|E]; rewrite Hadd in E; rewrite E in Hun.
    - rewrite are_synonyms_refl in Hun. discriminate.
    - congruence. }
  split; [exact Hun|]. split; [|split; [exact Hcaller|]].
  - intros Hin. specialize (Hun d c Hin Hc). congruence.
  - apply list_elem_of_lookup in Hc as [i Hi].
    assert ((task_args ++ remaining_defaults task_args)%list !! i = Some c) as Hi'
      by (rewrite lookup_app_l; [exact Hi | eapply lookup_lt_Some, Hi]).
    destruct (Forall2_lookup_l _ _ _ _ _ Hall Hi') as (call & Hcall & Hadd).
    exists i, call. repeat split; try assumption.
    intros Hnodup j call' Hj Hname.
    pose proof (Hcaller j call' Hj (or_introl Hname)) as Hlt.
    destruct (Forall2_lookup_r _ _ _ _ _ Hall Hj) as (a & Ha & Hadd').
    rewrite lookup_app_l in Ha by exact Hlt.
    apply add_argument_name in Hadd'.
    eapply NoDup_lookup; [exact Hnodup | | ].
    + rewrite list_lookup_fmap, Ha. simpl. rewrite <- Hadd', Hname. reflexivity.
    + rewrite list_lookup_fmap, Hi. reflexivity.
Qed.

Section Properties.
Context {pyfloat nparray : Type} `{RT : PyRuntime pyfloat}.

Abbreviation World := (@World pyfloat nparray).
Abbreviation SyntheticDataIter := (@SyntheticDataIter pyfloat nparray).
Abbreviation pyval := (@pyval pyfloat).

(** ** Inversion of [get_rec_pipeline_iter] *)

Ltac bind_inv H :=
  let x := fresh "x" in
  let Hx := fresh "Hx" in
  apply bind_Ok in H as (x & Hx & H).

Tactic Notation "ok_bind" hyp(H) "as" ident(x) ident(Hx) :=
  apply bind_Ok in H as (x & Hx & H).

Lemma HybridTrainPipe_init_inv batch_size num_threads device rec_path idx_path shard shards
    crop padding prefetch out_layout pad_out dt args dali_cpu name rc rr p :
  HybridTrainPipe_init batch_size num_threads device rec_path idx_path shard shards crop
    padding prefetch out_layout pad_out dt args dali_cpu name rc rr = Ok p →
  device_id (train_pipeline p) = device
  ∧ shard_id (input (train_reader p)) = shard
  ∧ num_shards (input (train_reader p)) = shards
  ∧ ImageMethods_init padding crop out_layout pad_out dt rc rr args dali_cpu
    = Ok (train_methods p).
Proof.
  unfold HybridTrainPipe_init. intros H. bind_inv H. injection H as <-.
  simpl. auto.
Qed.

Lemma HybridValPipe_init_inv batch_size num_threads device rec_path idx_path shard shards
    crop padding prefetch resize_shp out_layout pad_out dt rr args dali_cpu name p :
  HybridValPipe_init batch_size num_threads device rec_path idx_path shard shards crop
    padding prefetch resize_shp out_layout pad_out dt rr args dali_cpu name = Ok p →
  device_id (val_pipeline p) = device
  ∧ shard_id (input (val_reader p)) = shard
  ∧ num_shards (input (val_reader p)) = shards.
Proof.
  unfold HybridValPipe_init. intros H. bind_inv H. injection H as <-.
  simpl. auto.
Qed.

Lemma trainpipes_of_inv args batch_size num_threads rec_path idx_path gpu_list rank shards
    shape out_layout pad_out padding dali_cpu rc prop_args name ps :
  trainpipes_of args batch_size num_threads rec_path idx_path gpu_list rank shards shape
    out_layout pad_out padding dali_cpu rc prop_args name = Ok ps →
  Forall2 (fun gpu_id p =>
             device_id (train_pipeline p) = gpu_id
             ∧ shard_of gpu_list rank gpu_id = Ok (shard_id (input (train_reader p)))
             ∧ num_shards (input (train_reader p)) = shards
             ∧ ∃ dt, ImageMethods_init padding (drop 1 shape) out_layout pad_out dt rc
                       (negb (random_crop_truthy rc))
                       (if prop_args then Some args else None) dali_cpu
                     = Ok (train_methods p))
          gpu_list ps.
Proof.
  unfold trainpipes_of. intros H. apply mapM_Ok in H.
  eapply Forall2_impl; [exact H|]. clear H. intros gpu_id p H. simpl in H.
  bind_inv H. bind_inv H. bind_inv H.
  apply HybridTrainPipe_init_inv in H as (-> & -> & -> & Hm). eauto.
Qed.

Lemma valpipes_of_inv args batch_size num_threads rec_path idx_path gpu_list rank shards
    shape resize_shp out_layout pad_out padding dali_cpu prop_args name separ ps :
  valpipes_of args batch_size num_threads rec_path idx_path gpu_list rank shards shape
    resize_shp out_layout pad_out padding dali_cpu prop_args name separ = Ok ps →
  Forall2 (fun gpu_id p =>
             device_id (val_pipeline p) = gpu_id
             ∧ (if separ then Ok 0 else shard_of gpu_list rank gpu_id)
               = Ok (shard_id (input (val_reader p)))
             ∧ num_shards (input (val_reader p)) = (if separ then 1 else shards))
          gpu_list ps.
Proof.
  unfold valpipes_of. intros H. apply mapM_Ok in H.
  eapply Forall2_impl; [exact H|]. clear H. intros gpu_id p H. simpl in H.
  bind_inv H. bind_inv H. bind_inv H.
  apply HybridValPipe_init_inv in H as (-> & -> & ->). auto.
Qed.

(** What a successful [build_pipes] has computed. *)
Lemma build_pipes_inv (W : World) args kv dali_cpu rc prop_args target_shape gpus batch_size b :
  build_pipes W args kv dali_cpu rc prop_args target_shape gpus batch_size = Ok b →
  ∃ gpu_list shape batch threads vthreads rec_path idx_path out_layout pad_out padding,
    seq_items gpus = Ok gpu_list
    ∧ workers_of W args kv = Ok (built_rank b, built_nWrk b)
    ∧ built_reader_name b = match reader_of args with Some s => s | None => _Reader end
    ∧ trainpipes_of args batch threads rec_path idx_path gpu_list (built_rank b)
        (Z.of_nat (length gpu_list) * built_nWrk b) shape out_layout pad_out padding
        dali_cpu rc prop_args (built_reader_name b) = Ok (trainpipes b)
    ∧ head (trainpipes b) = Some (trainpipe0 b)
    ∧ match built_val b with
      | Some v =>
          val_flg_of args = true
          ∧ separ_val_flag v = separ_val_flag_of args
          ∧ head (valpipes v) = Some (valpipe0 v)
          ∧ ∃ rec_path' idx_path' resize_shp,
              valpipes_of args batch vthreads rec_path' idx_path' gpu_list (built_rank b)
                (Z.of_nat (length gpu_list) * built_nWrk b) shape resize_shp out_layout
                pad_out padding dali_cpu prop_args (built_reader_name b)
                (separ_val_flag v) = Ok (valpipes v)
      | None => val_flg_of args = false
      end.
Proof.
  unfold build_pipes. intros H.
  ok_bind H as shape Hshape. ok_bind H as pad_out Hpad.
  ok_bind H as threads Hthreads. ok_bind H as vthreads Hvthreads.
  ok_bind H as input_layout Hlayout. ok_bind H as w Hw. destruct w as [rank nWrk].
  ok_bind H as gpu_list Hgpus. ok_bind H as rec_path Hrec. ok_bind H as idx_path Hidx.
  ok_bind H as batch Hbatch. ok_bind H as p0 Hp0. ok_bind H as padding Hpadding.
  ok_bind H as tps Htps. ok_bind H as val Hval. ok_bind H as tp0 Htp0.
  ok_bind H as vb Hvb.
  injection H as <-. simpl.
  exists gpu_list, shape, batch, threads, vthreads, rec_path, idx_path,
    (if eq_str input_layout "NHWC" then NHWC else NCHW), pad_out, (padding * 1024 * 1024).
  repeat split; try assumption.
  - destruct tps as [|p ps]; [discriminate|]. injection Htp0 as ->. reflexivity.
  - destruct val as [[vps separ]|]; simpl in *.
    + destruct vps as [|vp vps]; [discriminate|]. injection Hvb as <-. simpl.
      destruct (val_flg_of args); [|discriminate].
      ok_bind Hval as v Hv. injection Hval as ->.
      unfold build_val in Hv.
      ok_bind Hv as rec_path' Hrec'. ok_bind Hv as idx_path' Hidx'.
      ok_bind Hv as resize_shp Hresize. ok_bind Hv as vps' Hvps.
      injection Hv as -> <-. repeat split; eauto.
    + injection Hvb as <-. destruct (val_flg_of args); [|reflexivity].
      ok_bind Hval as v Hv. discriminate.
Qed.

Lemma read_inputs_inv (W : World) args target_shape gpus batch_size :
  read_inputs W args = Ok (target_shape, gpus, batch_size) →
  target_shape_of args = Ok target_shape
  ∧ gpus_of W args = Ok gpus
  ∧ getattr args "batch_size" = Ok batch_size.
Proof.
  unfold read_inputs. intros H.
  ok_bind H as ts Hts. ok_bind H as g Hg. ok_bind H as bs Hbs.
  injection H as -> -> ->. auto.
Qed.

Lemma make_iters_inv (W : World) args b train val :
  make_iters W args b = Ok (train, val) →
  ∃ train_size val_size,
    train = DALITrain {| pipelines := trainpipes b; dali_size := train_size;
                         dali_reader_name := reader_of args; fill_last_batch := None |}
    ∧ val = match built_val b with
            | Some v => Some {| pipelines := valpipes v; dali_size := val_size;
                                dali_reader_name := reader_of args;
                                fill_last_batch := Some false |}
            | None => None
            end
    ∧ match reader_of args with
      | None =>
          (∃ n, getattr args "num_examples" ≫= as_int = Ok n
                ∧ floordiv n (built_nWrk b) = Ok train_size)
          ∧ match built_val b with
            | Some v => val_size_of W b v = Ok val_size
            | None => val_size = -1
            end
      | Some _ => train_size = -1 ∧ val_size = -1
      end.
Proof.
  unfold make_iters. intros H. ok_bind H as sizes Hsizes.
  destruct sizes as [train_size val_size]. injection H as <- <-.
  exists train_size, val_size. split; [reflexivity|]. split; [reflexivity|].
  destruct (reader_of args) as [s|].
  - injection Hsizes as <- <-. auto.
  - ok_bind Hsizes as v Hv. ok_bind Hsizes as n Hn. ok_bind Hsizes as ts Hts.
    ok_bind Hsizes as vs Hvs. injection Hsizes as <- <-.
    split.
    + exists n. rewrite Hv. simpl. auto.
    + destruct (built_val b); [exact Hvs | now injection Hvs].
Qed.

(** A returned pair comes from the synthetic branch, which issues no
    warning and returns no validation iterator, or from the DALI branch. *)
Lemma get_rec_pipeline_iter_inv (W : World) args kv dali_cpu rc prop_args ws train val :
  get_rec_pipeline_iter W args kv dali_cpu rc prop_args = (ws, Ok (train, val)) →
  ∃ target_shape gpus batch_size,
    read_inputs W args = Ok (target_shape, gpus, batch_size)
    ∧ ((synthetic_flag args = true ∧ ws = [] ∧ val = None
        ∧ ∃ it, synthetic_iter W args target_shape gpus batch_size = Ok it
                ∧ train = SyntheticTrain it)
       ∨ (synthetic_flag args = false
          ∧ ∃ b, build_pipes W args kv dali_cpu rc prop_args target_shape gpus batch_size
                 = Ok b
                 ∧ check_num_examples W args b = Ok ws
                 ∧ make_iters W args b = Ok (train, val))).
Proof.
  unfold get_rec_pipeline_iter. intros H.
  destruct (read_inputs W args) as [[[ts g] bs]|e]; [|discriminate].
  exists ts, g, bs. split; [reflexivity|].
  destruct (synthetic_flag args).
  - left. injection H as <- H. ok_bind H as it Hit. injection H as <- <-.
    repeat split; eauto.
  - right. split; [reflexivity|].
    destruct (build_pipes W args kv dali_cpu rc prop_args ts g bs) as [b|e];
      [|discriminate].
    destruct (check_num_examples W args b) as [w|e] eqn:Hcheck; [|discriminate].
    injection H as <- H. exists b. auto.
Qed.

(** ** [list.index] and the shard of a GPU *)

Lemma list_index_lookup (l : list Z) (g : nat) (x : Z) :
  NoDup l → l !! g = Some x → list_index x l = Ok (Z.of_nat g).
Proof.
  intros Hnd. revert g. induction Hnd as [|y ys Hy Hnd IH]; intros g Hg.
  - discriminate.
  - destruct g as [|g']; simpl in *.
    + injection Hg as ->. now rewrite Z.eqb_refl.
    + destruct (Z.eqb_spec x y) as [->|Hne].
      * exfalso. apply Hy. eapply list_elem_of_lookup_2, Hg.
      * rewrite (IH g' Hg). simpl. f_equal. lia.
Qed.

Lemma list_index_Ok (l : list Z) (x i : Z) :
  list_index x l = Ok i → 0 ≤ i ∧ l !! Z.to_nat i = Some x.
Proof.
  revert i. induction l as [|y ys IH]; intros i H; simpl in H; [discriminate|].
  destruct (Z.eqb_spec x y) as [->|Hne].
  - injection H as <-. split; [lia | reflexivity].
  - ok_bind H as j Hj. injection H as <-. destruct (IH j Hj) as [Hj0 Hlook].
    split; [lia|]. replace (Z.to_nat (1 + j)) with (S (Z.to_nat j)) by lia.
    exact Hlook.
Qed.

Lemma shard_of_lookup (gpu_list : list Z) (rank : Z) (g : nat) (gpu_id : Z) :
  NoDup gpu_list → gpu_list !! g = Some gpu_id →
  shard_of gpu_list rank gpu_id
  = Ok (Z.of_nat g + Z.of_nat (length gpu_list) * rank).
Proof.
  intros Hnd Hg. unfold shard_of. now rewrite (list_index_lookup _ _ _ Hnd Hg).
Qed.

Lemma shard_of_Ok (gpu_list : list Z) (rank gpu_id s : Z) :
  shard_of gpu_list rank gpu_id = Ok s →
  ∃ g, gpu_list !! g = Some gpu_id
       ∧ s = Z.of_nat g + Z.of_nat (length gpu_list) * rank.
Proof.
  unfold shard_of. intros H. ok_bind H as i Hi. injection H as <-.
  apply list_index_Ok in Hi as [Hi0 Hlook].
  exists (Z.to_nat i). split; [exact Hlook | lia].
Qed.

(** The GPU list and the worker numbers behind the pipelines of a
    returned DALI iterator. *)
Lemma dali_train_inv (W : World) args kv dali_cpu rc prop_args ws it val :
  get_rec_pipeline_iter W args kv dali_cpu rc prop_args = (ws, Ok (DALITrain it, val)) →
  ∃ gpus target_shape batch_size b,
    read_inputs W args = Ok (target_shape, gpus, batch_size)
    ∧ build_pipes W args kv dali_cpu rc prop_args target_shape gpus batch_size = Ok b
    ∧ check_num_examples W args b = Ok ws
    ∧ make_iters W args b = Ok (DALITrain it, val)
    ∧ pipelines it = trainpipes b.
Proof.
  intros H. apply get_rec_pipeline_iter_inv in H as (ts & g & bs & Hin & H).
  destruct H as [(_ & _ & _ & it' & _ & Hit)|(_ & b & Hb & Hc & Hm)]; [discriminate|].
  exists g, ts, bs, b. repeat split; try assumption.
  apply make_iters_inv in Hm as (train_size & val_size & Ht & _).
  injection Ht as ->. reflexivity.
Qed.

(** C1, amended. For a GPU list of pairwise distinct ids, the worker of
    rank [rank] among [nWrk] builds, for the GPU at index [g], a training
    pipeline with [shard_id = g + rank*len(gpus)] and
    [num_shards = nWrk*len(gpus)]; over the ranks below [nWrk] and the
    GPUs of the list, the shard ids so assigned are pairwise distinct and
    cover the integers from 0 up to [nWrk*len(gpus)]. *)
Theorem train_shards_of_distinct_gpus (W : World) args kv dali_cpu rc prop_args ws it val
    (gpu_list : list Z) (rank nWrk : Z) :
  get_rec_pipeline_iter W args kv dali_cpu rc prop_args = (ws, Ok (DALITrain it, val)) →
  gpus_of W args ≫= seq_items = Ok gpu_list →
  workers_of W args kv = Ok (rank, nWrk) →
  NoDup gpu_list →
  let n := Z.of_nat (length gpu_list) in
  (∀ g gpu_id, gpu_list !! g = Some gpu_id →
     ∃ p, pipelines it !! g = Some p
          ∧ device_id (train_pipeline p) = gpu_id
          ∧ shard_id (input (train_reader p)) = Z.of_nat g + rank * n
          ∧ num_shards (input (train_reader p)) = nWrk * n)
  ∧ length (pipelines it) = length gpu_list
  ∧ (∀ r r' a a' s, 0 ≤ r < nWrk → 0 ≤ r' < nWrk →
       shard_of gpu_list r a = Ok s → shard_of gpu_list r' a' = Ok s →
       r = r' ∧ a = a')
  ∧ (∀ s, 0 ≤ s < nWrk * n →
       ∃ r a, 0 ≤ r < nWrk ∧ a ∈ gpu_list ∧ shard_of gpu_list r a = Ok s).
Proof.
  intros Hret Hgpus Hw Hnd n.
  assert (n = Z.of_nat (length gpu_list)) as Hn by reflexivity. clearbody n.
  apply dali_train_inv in Hret as (g & ts & bs & b & Hin & Hb & _ & _ & Hpipes).
  apply read_inputs_inv in Hin as (_ & Hg & _).
  rewrite Hg in Hgpus. simpl in Hgpus.
  apply build_pipes_inv in Hb
    as (gl & shape & batch & th & vth & rec & idx & ol & po & pad
        & Hgl & Hw' & _ & Htp & _).
  rewrite Hgpus in Hgl. injection Hgl as <-.
  rewrite Hw in Hw'. injection Hw' as Hrank HnWrk.
  apply trainpipes_of_inv in Htp. rewrite <- Hpipes, <- Hrank, <- HnWrk in Htp.
  split; [|split; [|split]].
  - intros i gpu_id Hi.
    destruct (Forall2_lookup_l _ _ _ _ _ Htp Hi) as (p & Hp & Hdev & Hshard & Hnum & _).
    exists p. rewrite (shard_of_lookup _ _ _ _ Hnd Hi) in Hshard.
    injection Hshard as Hshard. repeat split; try assumption; lia.
  - symmetry. eapply Forall2_length, Htp.
  - intros r r' a a' s Hr Hr' Hs Hs'.
    apply shard_of_Ok in Hs as (i & Hi & ->).
    apply shard_of_Ok in Hs' as (i' & Hi' & Heq).
    pose proof (lookup_lt_Some _ _ _ Hi) as Hlt.
    pose proof (lookup_lt_Some _ _ _ Hi') as Hlt'.
    rewrite <- Hn in Heq.
    assert (r = r') as <- by nia.
    split; [reflexivity|].
    assert (i = i') as <- by lia. congruence.
  - intros s Hs.
    assert (0 < n) as Hpos
      by (destruct (Z.eq_dec n 0) as [E|E]; [rewrite E in Hs; lia | lia]).
    pose proof (Z.div_mod s n ltac:(lia)) as Hdm.
    pose proof (Z.mod_pos_bound s n Hpos) as Hmod.
    destruct (lookup_lt_is_Some_2 gpu_list (Z.to_nat (s mod n)) ltac:(lia)) as [a Ha].
    exists (s / n), a. split; [|split].
    + split; [apply Z.div_pos; lia | apply Z.div_lt_upper_bound; lia].
    + eapply list_elem_of_lookup_2, Ha.
    + rewrite (shard_of_lookup _ _ _ _ Hnd Ha). f_equal. lia.
Qed.

(** ** Validation pipelines *)

(** What stands behind a returned validation iterator. *)
Lemma dali_val_inv (W : World) args kv dali_cpu rc prop_args ws train val :
  get_rec_pipeline_iter W args kv dali_cpu rc prop_args = (ws, Ok (train, Some val)) →
  ∃ gpus target_shape batch_size b v,
    read_inputs W args = Ok (target_shape, gpus, batch_size)
    ∧ build_pipes W args kv dali_cpu rc prop_args target_shape gpus batch_size = Ok b
    ∧ built_val b = Some v
    ∧ pipelines val = valpipes v
    ∧ match reader_of args with
      | None => val_size_of W b v = Ok (dali_size val)
      | Some _ => dali_size val = -1
      end.
Proof.
  intros H. apply get_rec_pipeline_iter_inv in H as (ts & g & bs & Hin & H).
  destruct H as [(_ & _ & Hnone & _)|(_ & b & Hb & _ & Hm)]; [discriminate|].
  apply make_iters_inv in Hm as (train_size & val_size & _ & Hval & Hsizes).
  destruct (built_val b) as [v|] eqn:Hv; [|discriminate].
  injection Hval as ->. simpl.
  exists g, ts, bs, b, v. repeat split; try assumption.
  destruct (reader_of args); apply Hsizes.
Qed.

(** The validation pipelines stand one per GPU, in GPU order, with the
    shard of the separate-validation flag. *)
Lemma valpipes_shards (W : World) args kv dali_cpu rc prop_args ws train val (gpu_list : list Z) :
  get_rec_pipeline_iter W args kv dali_cpu rc prop_args = (ws, Ok (train, Some val)) →
  gpus_of W args ≫= seq_items = Ok gpu_list →
  ∃ rank nWrk,
    workers_of W args kv = Ok (rank, nWrk)
    ∧ Forall2 (fun gpu_id p =>
                 device_id (val_pipeline p) = gpu_id
                 ∧ (if separ_val_flag_of args then Ok 0 else shard_of gpu_list rank gpu_id)
                   = Ok (shard_id (input (val_reader p)))
                 ∧ num_shards (input (val_reader p))
                   = (if separ_val_flag_of args then 1
                      else Z.of_nat (length gpu_list) * nWrk))
              gpu_list (pipelines val).
Proof.
  intros H Hgpus.
  apply dali_val_inv in H as (g & ts & bs & b & v & Hin & Hb & Hv & Hpipes & _).
  apply read_inputs_inv in Hin as (_ & Hg & _).
  rewrite Hg in Hgpus. simpl in Hgpus.
  apply build_pipes_inv in Hb
    as (gl & shape & batch & th & vth & rec & idx & ol & po & pad
        & Hgl & Hw & _ & _ & _ & Hval).
  rewrite Hgpus in Hgl. injection Hgl as <-.
  rewrite Hv in Hval. destruct Hval as (_ & Hsep & _ & rec' & idx' & rshp & Hvp).
  exists (built_rank b), (built_nWrk b). split; [exact Hw|].
  rewrite Hpipes, <- Hsep. eapply valpipes_of_inv, Hvp.
Qed.

(** C7. In separate-validation mode every validation pipeline that
    [get_rec_pipeline_iter] builds, one per GPU of the list and whatever
    the rank of the worker, is constructed with [shard_id = 0] and
    [num_shards = 1]. *)
Theorem separ_val_reads_whole_set (W : World) args kv dali_cpu rc prop_args ws train val
    (gpu_list : list Z) :
  get_rec_pipeline_iter W args kv dali_cpu rc prop_args = (ws, Ok (train, Some val)) →
  gpus_of W args ≫= seq_items = Ok gpu_list →
  separ_val_flag_of args = true →
  Forall2 (fun gpu_id p =>
             device_id (val_pipeline p) = gpu_id
             ∧ shard_id (input (val_reader p)) = 0
             ∧ num_shards (input (val_reader p)) = 1)
          gpu_list (pipelines val).
Proof.
  intros H Hgpus Hsep.
  destruct (valpipes_shards _ _ _ _ _ _ _ _ _ _ H Hgpus) as (rank & nWrk & _ & Hall).
  rewrite Hsep in Hall. eapply Forall2_impl; [exact Hall|].
  intros gpu_id p (Hdev & Hshard & Hnum). injection Hshard as Hshard. auto.
Qed.

(** C8. An attribute named [dali_separ_val] or [separ_val] switches
    separate validation on by being there, whatever value it holds,
    [False] included: every validation pipeline is built with
    [shard_id = 0] and [num_shards = 1], and the size handed to the
    validation iterator is the epoch size that the first validation
    pipeline reports, undivided (or -1 under a reader name). *)
Theorem separ_val_by_presence (W : World) args kv dali_cpu rc prop_args ws train val (v : pyval) :
  get_rec_pipeline_iter W args kv dali_cpu rc prop_args = (ws, Ok (train, Some val)) →
  args !! "dali_separ_val" = Some v ∨ args !! "separ_val" = Some v →
  Forall (fun p => shard_id (input (val_reader p)) = 0
                   ∧ num_shards (input (val_reader p)) = 1) (pipelines val)
  ∧ ∃ p0 rest,
      pipelines val = p0 :: rest
      ∧ dali_size val = match reader_of args with
                        | None => val_pipe_epoch_size W p0 _Reader
                        | Some _ => -1
                        end.
Proof.
  intros H Hattr.
  assert (separ_val_flag_of args = true) as Hsep.
  { unfold separ_val_flag_of, hasattr.
    destruct Hattr as [-> | ->]; [reflexivity | apply orb_true_r]. }
  pose proof H as H'.
  apply dali_val_inv in H' as (g & ts & bs & b & vb & Hin & Hb & Hv & Hpipes & Hsize).
  pose proof Hb as Hb'.
  apply build_pipes_inv in Hb'
    as (gl & shape & batch & th & vth & rec & idx & ol & po & pad
        & Hgl & Hw & Hname & _ & _ & Hval).
  rewrite Hv in Hval. destruct Hval as (_ & Hflag & Hhead & _).
  split.
  - apply read_inputs_inv in Hin as (_ & Hg & _).
    assert (gpus_of W args ≫= seq_items = Ok gl) as Hgpus by (rewrite Hg; exact Hgl).
    destruct (valpipes_shards _ _ _ _ _ _ _ _ _ _ H Hgpus) as (rank & nWrk & _ & Hall).
    rewrite Hsep in Hall. eapply Forall2_Forall_r; [exact Hall|].
    apply Forall_forall. intros gpu_id _ p (_ & Hshard & Hnum).
    injection Hshard as Hshard. auto.
  - rewrite Hpipes. destruct (valpipes vb) as [|p0 rest]; [discriminate|].
    simpl in Hhead. injection Hhead as Hp0. exists p0, rest. split; [reflexivity|].
    destruct (reader_of args) as [s|]; [exact Hsize|].
    unfold val_size_of in Hsize. rewrite Hflag, Hsep, Hname, <- Hp0 in Hsize.
    now injection Hsize.
Qed.

(** ** The warning of line 352 *)

Lemma floordiv_Ok (a b : Z) : b ≠ 0 → floordiv a b = Ok (a / b).
Proof. intros Hb. unfold floordiv. now destruct (Z.eqb_spec b 0). Qed.

(** With an integer [args.num_examples] and a non-zero worker count, the
    last stage raises nothing. *)
Lemma make_iters_Ok (W : World) args b (n : Z) :
  getattr args "num_examples" ≫= as_int = Ok n → built_nWrk b ≠ 0 →
  ∃ train val, make_iters W args b = Ok (train, val).
Proof.
  intros Hn HnWrk. unfold make_iters.
  destruct (reader_of args) as [s|]; simpl; [eauto|].
  destruct (getattr args "num_examples") as [v|e]; [|discriminate]. simpl in *.
  rewrite Hn. simpl. rewrite (floordiv_Ok _ _ HnWrk). simpl.
  destruct (built_val b) as [v0|]; simpl; [|eauto].
  unfold val_size_of. destruct (separ_val_flag v0); simpl; [eauto|].
  rewrite (floordiv_Ok _ _ HnWrk). simpl. eauto.
Qed.

(** C6, amended. Once the pipelines are built, [get_rec_pipeline_iter]
    issues the warning exactly when [args.num_examples] is less than the
    epoch size that the first training pipeline reports; warned or not,
    it goes on to make the iterators, and for a non-zero worker count it
    returns the pair. *)
Theorem warning_when_fewer_examples (W : World) args kv dali_cpu rc prop_args
    target_shape gpus batch_size b (n : Z) :
  read_inputs W args = Ok (target_shape, gpus, batch_size) →
  synthetic_flag args = false →
  build_pipes W args kv dali_cpu rc prop_args target_shape gpus batch_size = Ok b →
  getattr args "num_examples" ≫= as_int = Ok n →
  let full := train_pipe_epoch_size W (trainpipe0 b) (built_reader_name b) in
  let out := get_rec_pipeline_iter W args kv dali_cpu rc prop_args in
  fst out = (if n <? full then [TrainingExamplesWarning n full] else [])
  ∧ snd out = make_iters W args b
  ∧ (built_nWrk b ≠ 0 → ∃ train val, snd out = Ok (train, val)).
Proof.
  intros Hin Hsyn Hb Hn full out. subst out full.
  unfold get_rec_pipeline_iter. rewrite Hin, Hsyn, Hb.
  unfold check_num_examples.
  destruct (getattr args "num_examples") as [v|e] eqn:Hv; [|discriminate].
  simpl in Hn |- *. rewrite Hn. simpl.
  split; [reflexivity|]. split; [reflexivity|].
  intros HnWrk. eapply make_iters_Ok; [|exact HnWrk]. rewrite Hv. exact Hn.
Qed.

(** ** Validation sizes without a reader name *)

(** Outside separate validation every rank below the epoch size is
    handed one example more than the quotient. *)
Lemma val_size_of_shared (W : World) b v :
  separ_val_flag v = false → built_nWrk b ≠ 0 →
  val_size_of W b v
  = Ok (let V := val_pipe_epoch_size W (valpipe0 v) (built_reader_name b) in
        V / built_nWrk b + (if built_rank b <? V then 1 else 0)).
Proof.
  intros Hsep HnWrk. unfold val_size_of. rewrite Hsep, (floordiv_Ok _ _ HnWrk).
  simpl. destruct (built_rank b <? _); f_equal; lia.
Qed.

(** ** [get_attribute] *)

(** Whatever the attribute holds, [get_attribute] returns [True] for an
    attribute that is there, and the default for one that is not. *)
Lemma get_attribute_present (ns : gmap string pyval) (attr_name : string)
    (v def_value : pyval) :
  ns !! attr_name = Some v →
  get_attribute (Some ns) attr_name def_value = Ok (VBool true).
Proof. intros H. unfold get_attribute, hasattr_opt, hasattr. now rewrite H. Qed.

Lemma get_attribute_absent (args : option (gmap string pyval)) (attr_name : string)
    (def_value : pyval) :
  match args with Some ns => ns !! attr_name = None | None => True end →
  get_attribute args attr_name def_value = Ok def_value.
Proof.
  intros H. unfold get_attribute, hasattr_opt, hasattr.
  destruct args as [ns|]; [now rewrite H | reflexivity].
Qed.

(** ** The synthetic iterator *)

(** [moved it it']: [it'] is [it] with another sample counter. *)
Definition moved (it it' : SyntheticDataIter) : Prop :=
  ∃ c, it' = set_cur_sample it c.

Lemma moved_refl (it : SyntheticDataIter) : moved it it.
Proof. exists (cur_sample it). now destruct it. Qed.

Lemma moved_trans (it1 it2 it3 : SyntheticDataIter) : moved it1 it2 → moved it2 it3 → moved it1 it3.
Proof. intros [c ->] [c' ->]. now exists c'. Qed.

Lemma moved_batches (it it' : SyntheticDataIter) : moved it it' → batches it' = batches it.
Proof. now intros [c ->]. Qed.

Lemma moved_reset (it it' : SyntheticDataIter) : moved it it' → reset it' = reset it.
Proof. now intros [c ->]. Qed.

Lemma next_moved (it : SyntheticDataIter) : moved it (snd (next it)).
Proof.
  unfold next. destruct (as_int (epoch_size it)) as [budget|e]; [|apply moved_refl].
  destruct (cur_sample it <=? budget); [|apply moved_refl].
  destruct (as_int (batch_size it)) as [b|e]; [|apply moved_refl].
  simpl. now eexists.
Qed.

Lemma next_Ok (it : SyntheticDataIter) bs : fst (next it) = Ok bs → bs = batches it.
Proof.
  unfold next. destruct (as_int (epoch_size it)) as [budget|e]; [|discriminate].
  destruct (cur_sample it <=? budget); [|discriminate].
  destruct (as_int (batch_size it)) as [b|e]; [|discriminate].
  simpl. now intros [= <-].
Qed.

Lemma next_n_S (n : nat) (it : SyntheticDataIter) :
  next_n (S n) it
  = (fst (next it) :: fst (next_n n (snd (next it))), snd (next_n n (snd (next it)))).
Proof.
  simpl. destruct (next it) as [r it']. simpl.
  now destruct (next_n n it') as [rs it''].
Qed.

Lemma next_n_moved (n : nat) (it : SyntheticDataIter) : moved it (snd (next_n n it)).
Proof.
  revert it. induction n as [|n IH]; intros it; [apply moved_refl|].
  rewrite next_n_S. simpl. eapply moved_trans; [apply next_moved | apply IH].
Qed.

Lemma next_n_length (n : nat) (it : SyntheticDataIter) : length (fst (next_n n it)) = n.
Proof.
  revert it. induction n as [|n IH]; intros it; [reflexivity|].
  rewrite next_n_S. simpl. now rewrite IH.
Qed.

Lemma next_n_Ok (n : nat) (it : SyntheticDataIter) bs : Ok bs ∈ fst (next_n n it) → bs = batches it.
Proof.
  revert it. induction n as [|n IH]; intros it.
  - simpl. intros H. inversion H.
  - rewrite next_n_S. simpl. intros H. apply elem_of_cons in H as [H|H].
    + now apply next_Ok.
    + rewrite (IH _ H). apply moved_batches, next_moved.
Qed.

(** The [k]-th call (counting from 0) on an iterator with integer budget
    [E], batch size [B] and a positive step returns the batches exactly
    when the counter, advanced [k] steps, has not passed the budget. *)
Lemma next_n_lookup (n k : nat) (it : SyntheticDataIter) (E B : Z) :
  epoch_size it = VInt E → batch_size it = VInt B → 0 < B * _num_gpus it →
  (k < n)%nat →
  fst (next_n n it) !! k
  = Some (if cur_sample it + Z.of_nat k * (B * _num_gpus it) <=? E
          then Ok (batches it) else Raise StopIteration).
Proof.
  revert k it. induction n as [|n IH]; intros k it HE HB Hstep Hk; [lia|].
  rewrite next_n_S. simpl.
  assert (fst (next it) = (if cur_sample it <=? E then Ok (batches it)
                           else Raise StopIteration)
          ∧ snd (next it) = (if cur_sample it <=? E
                             then set_cur_sample it (cur_sample it + B * _num_gpus it)
                             else it)) as [Hfst Hsnd].
  { unfold next. rewrite HE, HB. simpl. now destruct (cur_sample it <=? E). }
  destruct k as [|k'].
  - simpl. rewrite Hfst. replace (cur_sample it + 0 * _) with (cur_sample it) by lia.
    reflexivity.
  - simpl. rewrite Hsnd.
    destruct (Z.leb_spec (cur_sample it) E) as [Hle|Hgt].
    + rewrite IH by (simpl; auto; lia). simpl. f_equal.
      replace (cur_sample it + B * _num_gpus it + Z.of_nat k' * (B * _num_gpus it))
        with (cur_sample it + Z.of_nat (S k') * (B * _num_gpus it)) by lia.
      reflexivity.
    + rewrite IH by (auto; lia). f_equal.
      destruct (Z.leb_spec (cur_sample it + Z.of_nat k' * (B * _num_gpus it)) E);
        destruct (Z.leb_spec (cur_sample it + Z.of_nat (S k') * (B * _num_gpus it)) E);
        try reflexivity; nia.
Qed.

(** What [__init__] leaves in the iterator. *)
Lemma SyntheticDataIter_init_inv (W : World) num_classes shape E dt g lay it0 :
  SyntheticDataIter_init W num_classes shape E dt g lay = Ok it0 →
  ∃ bsz gpu_list label_draw data_draw,
    head shape = Some bsz
    ∧ seq_items g = Ok gpu_list
    ∧ np_random_randint W 0 num_classes [bsz] = Ok label_draw
    ∧ np_random_uniform W (-1) 1 shape = Ok data_draw
    ∧ it0 = {| batch_size := bsz; cur_sample := 0; epoch_size := E; dtype := dt;
               gpus := gpu_list; _num_gpus := Z.of_nat (length gpu_list);
               data_shape := shape; layout := lay;
               data := map (fun i => {| nd_source := data_draw; nd_dtype := dt;
                                        nd_ctx := gpu i |}) gpu_list;
               label := map (fun _ => {| nd_source := label_draw;
                                         nd_dtype := np_float32;
                                         nd_ctx := cpu_pinned 0 |}) gpu_list |}.
Proof.
  unfold SyntheticDataIter_init. intros H.
  ok_bind H as bsz Hbsz. ok_bind H as gpu_list Hg. ok_bind H as label_draw Hl.
  ok_bind H as data_draw Hd. injection H as <-.
  exists bsz, gpu_list, label_draw, data_draw. repeat split; try assumption.
  destruct shape; [discriminate | now injection Hbsz as ->].
Qed.

Lemma batches_init (gpu_list : list Z) (bsz E dt lay : pyval) (shape : list pyval)
    (label_draw data_draw : nparray) :
  batches {| batch_size := bsz; cur_sample := 0; epoch_size := E; dtype := dt;
             gpus := gpu_list; _num_gpus := Z.of_nat (length gpu_list);
             data_shape := shape; layout := lay;
             data := map (fun i => {| nd_source := data_draw; nd_dtype := dt;
                                      nd_ctx := gpu i |}) gpu_list;
             label := map (fun _ => {| nd_source := label_draw; nd_dtype := np_float32;
                                       nd_ctx := cpu_pinned 0 |}) gpu_list |}
  = map (fun i => {| batch_data := [{| nd_source := data_draw; nd_dtype := dt;
                                       nd_ctx := gpu i |}];
                     batch_label := [{| nd_source := label_draw; nd_dtype := np_float32;
                                        nd_ctx := cpu_pinned 0 |}];
                     pad := 0 |}) gpu_list.
Proof.
  unfold batches. simpl. induction gpu_list as [|i l IH]; simpl; [reflexivity|].
  f_equal. exact IH.
Qed.

(** C9. The batches of a [SyntheticDataIter] are fixed at construction:
    one per device, holding the two arrays drawn once in [__init__];
    every call of [next] that returns, after any number of calls,
    returns exactly these; and [reset] after any number of calls gives
    back the iterator as constructed, so that the next call does what the
    first call did. *)
Theorem synthetic_batches_fixed (W : World) (num_classes : Z) (shape : list pyval)
    (E dt g lay : pyval) it0 :
  SyntheticDataIter_init W num_classes shape E dt g lay = Ok it0 →
  ∃ bsz gpu_list label_draw data_draw,
    seq_items g = Ok gpu_list
    ∧ np_random_randint W 0 num_classes [bsz] = Ok label_draw
    ∧ np_random_uniform W (-1) 1 shape = Ok data_draw
    ∧ batches it0
      = map (fun i => {| batch_data := [{| nd_source := data_draw; nd_dtype := dt;
                                           nd_ctx := gpu i |}];
                         batch_label := [{| nd_source := label_draw;
                                            nd_dtype := np_float32;
                                            nd_ctx := cpu_pinned 0 |}];
                         pad := 0 |}) gpu_list
    ∧ ∀ n : nat,
        (∀ bs, Ok bs ∈ fst (next_n n it0) → bs = batches it0)
        ∧ reset (snd (next_n n it0)) = it0
        ∧ next (reset (snd (next_n n it0))) = next it0.
Proof.
  intros H.
  apply SyntheticDataIter_init_inv in H
    as (bsz & gpu_list & label_draw & data_draw & _ & Hg & Hl & Hd & ->).
  exists bsz, gpu_list, label_draw, data_draw.
  split; [exact Hg|]. split; [exact Hl|]. split; [exact Hd|].
  split; [apply batches_init|].
  intros n. split; [intros bs; apply next_n_Ok|].
  match goal with |- reset (snd (next_n n ?it)) = _ ∧ _ =>
    assert (reset (snd (next_n n it)) = it) as ->
      by (rewrite (moved_reset _ _ (next_n_moved n it)); reflexivity)
  end.
  split; reflexivity.
Qed.

(** From the constructed state, with a positive step [B*G] and a budget
    [E >= 0], the first [E // (B*G) + 1] calls return the batches and the
    call after them raises [StopIteration]. *)
Lemma next_n_exhaustion (it0 : SyntheticDataIter) (E B : Z) :
  epoch_size it0 = VInt E → batch_size it0 = VInt B → cur_sample it0 = 0 →
  0 < B * _num_gpus it0 → 0 ≤ E →
  fst (next_n (Z.to_nat (E / (B * _num_gpus it0)) + 2) it0)
  = (replicate (Z.to_nat (E / (B * _num_gpus it0)) + 1) (Ok (batches it0))
     ++ [Raise StopIteration])%list.
Proof.
  intros HE HB Hcur Hstep HE0.
  set (step := B * _num_gpus it0) in *.
  assert (0 ≤ E / step) as Hq by (apply Z.div_pos; lia).
  pose proof (Z.div_mod E step ltac:(lia)) as Hdm.
  pose proof (Z.mod_pos_bound E step Hstep) as Hmod.
  apply list_eq. intros k.
  destruct (decide (k < Z.to_nat (E / step) + 2)%nat) as [Hk|Hk].
  - rewrite (next_n_lookup _ _ _ E B HE HB Hstep Hk), Hcur. fold step.
    destruct (decide (k < Z.to_nat (E / step) + 1)%nat) as [Hk'|Hk'].
    + rewrite lookup_app_l by (rewrite length_replicate; lia).
      rewrite lookup_replicate_2 by lia.
      destruct (Z.leb_spec (0 + Z.of_nat k * step) E); [reflexivity | nia].
    + rewrite lookup_app_r by (rewrite length_replicate; lia).
      rewrite length_replicate.
      replace (k - (Z.to_nat (E / step) + 1))%nat with 0%nat by lia. simpl.
      destruct (Z.leb_spec (0 + Z.of_nat k * step) E); [nia | reflexivity].
  - rewrite !lookup_ge_None_2; [reflexivity | |].
    + rewrite length_app, length_replicate. simpl. lia.
    + rewrite next_n_length. lia.
Qed.

(** C3, at the budgets that the step divides. For an iterator built
    with [epoch_size = E >= 0], batch size [B] and [G] devices, where
    [B*G > 0] divides [E], each of the first [ceil(E/(B*G)) + 1] calls of
    [next] returns the batches, the last of them included, and
    [StopIteration] comes only with the call after. *)
Theorem synthetic_iter_one_batch_more (W : World) (num_classes : Z) (shape : list pyval)
    (dt g lay : pyval) it0 (E B : Z) (gpu_list : list Z) :
  SyntheticDataIter_init W num_classes (VInt B :: shape) (VInt E) dt g lay = Ok it0 →
  seq_items g = Ok gpu_list →
  let step := B * Z.of_nat (length gpu_list) in
  0 < step → 0 ≤ E → E mod step = 0 →
  let calls := Z.to_nat ((E + step - 1) / step + 1) in
  fst (next_n (calls + 1) it0)
  = (replicate calls (Ok (batches it0)) ++ [Raise StopIteration])%list.
Proof.
  intros H Hg step Hstep HE Hdiv calls.
  apply SyntheticDataIter_init_inv in H
    as (bsz & gl & label_draw & data_draw & Hb & Hg' & _ & _ & Hit).
  rewrite Hg in Hg'. injection Hg' as <-. injection Hb as <-.
  assert (epoch_size it0 = VInt E ∧ batch_size it0 = VInt B ∧ cur_sample it0 = 0
          ∧ _num_gpus it0 = Z.of_nat (length gpu_list)) as (HE' & HB' & Hc & HG)
    by (rewrite Hit; auto).
  pose proof (next_n_exhaustion it0 E B HE' HB' Hc) as Hex.
  rewrite HG in Hex. fold step in Hex. specialize (Hex Hstep HE).
  assert ((E + step - 1) / step = E / step) as Hceil.
  { pose proof (Z.div_mod E step ltac:(lia)) as Hdm. rewrite Hdiv in Hdm.
    symmetry. apply Z.div_unique with (r := step - 1); lia. }
  assert (0 ≤ E / step) as Hq by (apply Z.div_pos; lia).
  subst calls. rewrite Hceil.
  replace (Z.to_nat (E / step + 1)) with (Z.to_nat (E / step) + 1)%nat by lia.
  replace (Z.to_nat (E / step) + 1 + 1)%nat with (Z.to_nat (E / step) + 2)%nat by lia.
  exact Hex.
Qed.

End Properties.

(** * The model at concrete inputs *)

#[local] Existing Instance decimal_runtime.

(** ** The argument merge *)

(** A caller that brings its own [--dali-threads] and the synonym
    [--dali-separ-val] of the default [--separ-val]. *)
Definition caller_args : list argspec :=
  [ {| arg_name := "--dali-threads";
       arg_rest := [FType IntT; FInt 4; FStr "threads per GPU"] |};
    {| arg_name := "--dali-separ-val";
       arg_rest := [FStr "store_true"; FStr "validate on the whole set"] |} ].

Definition caller_calls : list add_argument_call :=
  [ AddTyped "--dali-threads" (FType IntT) (FInt 4) (FStr "threads per GPU");
    AddAction "--dali-separ-val" (FStr "store_true") (FStr "validate on the whole set");
    AddTyped "--dali-prefetch-queue" (FType IntT) (FInt 3) (FStr "DALI prefetch queue depth");
    AddTyped "--dali-nvjpeg-memory-padding" (FType IntT) (FInt 16)
      (FStr "Memory padding value for nvJPEG (in MB)");
    AddTyped "--num_examples" (FType IntT) (FInt (-1))
      (FStr ("Number of training examples to be used, " ++ dquote ++ "-1"
             ++ dquote ++ " - the full training set"));
    AddTyped "--reader_name" (FType StrT) (FStr "") (FStr "Reader name") ].

Lemma merge_caller_wins_witness :
  add_dali_pipeline_args caller_args = Ok caller_calls
  ∧ remaining_defaults caller_args = drop 2 default_args
  ∧ ∃ i call,
      caller_args !! i
      = Some {| arg_name := "--dali-separ-val";
                arg_rest := [FStr "store_true"; FStr "validate on the whole set"] |}
      ∧ caller_calls !! i = Some call
      ∧ ∀ j call', caller_calls !! j = Some call' →
                   call_name call' = "--dali-separ-val" → j = i.
Proof.
  split; [vm_compute; reflexivity|]. split; [vm_compute; reflexivity|].
  destruct (merge_caller_wins caller_args caller_calls
              {| arg_name := "--dali-separ-val";
                 arg_rest := [FStr "store_true"; FStr "validate on the whole set"] |}
              {| arg_name := "--separ-val";
                 arg_rest := [FStr "store_true";
                              FStr "each process will perform independent validation on whole val-set"] |})
    as (_ & _ & _ & i & call & Hi & Hcall & _ & Hone).
  - vm_compute. reflexivity.
  - apply list_elem_of_In. simpl. auto.
  - apply list_elem_of_In. simpl. auto.
  - vm_compute. reflexivity.
  - exists i, call. split; [exact Hi|]. split; [exact Hcall|].
    apply Hone. apply NoDup_cons. split; [|apply NoDup_singleton].
    intros H. apply list_elem_of_In in H. simpl in H. intuition discriminate.
Defined.

(** C5 as stated fails for a caller option that shares only the
    destination of a default.  [--num-examples] and the default
    [--num_examples] both fill [args.num_examples], yet their option
    strings differ and the table does not relate them: no default is
    dropped, and the merged list holds two options of that destination,
    the caller's at place 0 and the default at place 5. *)
Definition spelled_args : list argspec :=
  [ {| arg_name := "--num-examples";
       arg_rest := [FType IntT; FInt 100; FStr "examples per epoch"] |} ].

Lemma same_destination_registered_twice :
  ∃ calls caller_call default_call,
    add_dali_pipeline_args spelled_args = Ok calls
    ∧ remaining_defaults spelled_args = default_args
    ∧ calls !! 0%nat = Some caller_call
    ∧ calls !! 5%nat = Some default_call
    ∧ call_name caller_call = "--num-examples"
    ∧ call_name default_call = "--num_examples"
    ∧ call_dest caller_call = "num_examples"
    ∧ call_dest default_call = "num_examples".
Proof.
  eexists _, _, _. split; [vm_compute; reflexivity|].
  repeat split; vm_compute; reflexivity.
Qed.

(** ** Shards of the training pipelines *)

(** The ImageNet record files: 1281167 training and 50000 validation
    examples. *)
Definition imagenet : @World Q filled_array := local_world 1281167 50000.

(** Rank 1 of two workers of a key-value store. *)
Definition second_of_two : option KVStore :=
  Some {| kv_rank := 1; kv_num_workers := 2 |}.

Lemma train_shards_of_distinct_gpus_witness :
  ∃ ws it val,
    get_rec_pipeline_iter imagenet dali_args second_of_two None (RCBool true) false
    = (ws, Ok (DALITrain it, val))
    ∧ train_shard_ids it = [2; 3]
    ∧ ∀ s, 0 ≤ s < 2 * 2 →
        ∃ r a, 0 ≤ r < 2 ∧ a ∈ [0; 1] ∧ shard_of [0; 1] r a = Ok s.
Proof.
  eexists _, _, _. split; [vm_compute; reflexivity|].
  split; [vm_compute; reflexivity|].
  eapply (train_shards_of_distinct_gpus imagenet dali_args second_of_two None
            (RCBool true) false _ _ _ [0; 1] 1 2).
  - vm_compute. reflexivity.
  - vm_compute. reflexivity.
  - vm_compute. reflexivity.
  - apply NoDup_cons. split; [|apply NoDup_singleton].
    intros H. apply list_elem_of_In in H. simpl in H. intuition discriminate.
Defined.

(** C1 as stated fails on a GPU list that names a GPU twice.  With
    [gpus = "0,0"], one worker of rank 0: the pipeline at index 1 gets
    shard 0, the same as the pipeline at index 0, and not [1 + 0*2];
    shard 1 of the 2 is read by no pipeline. *)
Lemma duplicate_gpu_ids_share_a_shard :
  ∃ ws it val p,
    get_rec_pipeline_iter imagenet (<["gpus" := VStr "0,0"]> dali_args) None None
      (RCBool true) false
    = (ws, Ok (DALITrain it, val))
    ∧ train_shard_ids it = [0; 0]
    ∧ pipelines it !! 1%nat = Some p
    ∧ num_shards (input (train_reader p)) = 2
    ∧ shard_id (input (train_reader p)) ≠ 1 + 0 * 2.
Proof.
  eexists _, _, _, _. split; [vm_compute; reflexivity|].
  split; [vm_compute; reflexivity|].
  split; [vm_compute; reflexivity|].
  split; [vm_compute; reflexivity|].
  vm_compute. discriminate.
Defined.

(** ** Validation sizes *)

(** C2 at a failing input: two workers, a validation set of 5 examples,
    no reader name, no separate validation.  Both ranks are handed
    [5 // 2 + 1 = 3] examples, 6 in all, where the claim has 3 for rank 0
    and 2 for rank 1. *)
Theorem val_sizes_exceed_the_set :
  worker_val_size (local_world 1000 5) dali_args 2 0 = Some 3
  ∧ worker_val_size (local_world 1000 5) dali_args 2 1 = Some 3
  ∧ separ_val_flag_of dali_args = false
  ∧ reader_of dali_args = None.
Proof. repeat split; vm_compute; reflexivity. Qed.

(** ** Pixel statistics *)

Definition rgb_args : gmap string (@pyval Q) :=
  <["rgb_mean" := VStr "123.68,116.779,103.939"]>
    (<["rgb_std" := VStr "58.393,57.12,57.375"]> dali_args).

(** C4 at a failing input: with [rgb_mean] and [rgb_std] given as
    comma-separated strings and the arguments propagated to the
    pipelines, [CropMirrorNormalize] receives [True] for both, not the
    lists of floats the strings spell. *)
Theorem rgb_attributes_replaced_by_True :
  ∃ ws it val,
    get_rec_pipeline_iter imagenet rgb_args None None (RCBool true) true
    = (ws, Ok (DALITrain it, val))
    ∧ map (fun p => mean (cmnp (train_methods p))) (pipelines it) = [VBool true; VBool true]
    ∧ map (fun p => std (cmnp (train_methods p))) (pipelines it) = [VBool true; VBool true]
    ∧ mapM (float_of_str (pyfloat := Q)) (split "," "123.68,116.779,103.939")
      = Ok [Qmake 12368 100; Qmake 116779 1000; Qmake 103939 1000].
Proof.
  eexists _, _, _. split; [vm_compute; reflexivity|].
  repeat split; vm_compute; reflexivity.
Qed.

(** ** The warning *)

Lemma warning_when_fewer_examples_witness :
  fst (get_rec_pipeline_iter imagenet dali_args None None (RCBool true) false)
  = [TrainingExamplesWarning 1000 1281167]
  ∧ ∃ train val,
      snd (get_rec_pipeline_iter imagenet dali_args None None (RCBool true) false)
      = Ok (train, val).
Proof.
  edestruct (warning_when_fewer_examples imagenet dali_args None None (RCBool true) false)
    as (Hw & _ & Hok);
    [vm_compute; reflexivity | vm_compute; reflexivity | vm_compute; reflexivity
     | vm_compute; reflexivity | ].
  split; [rewrite Hw; vm_compute; reflexivity|].
  apply Hok. vm_compute. discriminate.
Defined.

(** C6 as stated fails in both directions.  Asking for 2000000 examples
    of a training set of 1281167 exceeds the set and draws no warning;
    asking for 1000 does not exceed it and draws the warning. *)
Lemma no_warning_when_more_examples :
  fst (get_rec_pipeline_iter imagenet (<["num_examples" := VInt 2000000]> dali_args)
         None None (RCBool true) false) = []
  ∧ is_Ok (snd (get_rec_pipeline_iter imagenet
                  (<["num_examples" := VInt 2000000]> dali_args)
                  None None (RCBool true) false)) = true
  ∧ fst (get_rec_pipeline_iter imagenet dali_args None None (RCBool true) false)
    = [TrainingExamplesWarning 1000 1281167].
Proof. repeat split; vm_compute; reflexivity. Qed.

(** ** Separate validation *)

(** The arguments of [dali_args] with the [store_true] default of
    [--separ-val]: the attribute is there and holds [False]. *)
Definition separ_args : gmap string (@pyval Q) := <["separ_val" := VBool false]> dali_args.

Lemma separ_val_reads_whole_set_witness :
  ∃ ws train val,
    get_rec_pipeline_iter imagenet separ_args second_of_two None (RCBool true) false
    = (ws, Ok (train, Some val))
    ∧ Forall2 (fun gpu_id p =>
                 device_id (val_pipeline p) = gpu_id
                 ∧ shard_id (input (val_reader p)) = 0
                 ∧ num_shards (input (val_reader p)) = 1)
              [0; 1] (pipelines val).
Proof.
  eexists _, _, _. split; [vm_compute; reflexivity|].
  eapply (separ_val_reads_whole_set imagenet separ_args second_of_two None
            (RCBool true) false).
  - vm_compute. reflexivity.
  - vm_compute. reflexivity.
  - vm_compute. reflexivity.
Defined.

Lemma separ_val_by_presence_witness :
  ∃ ws train val,
    get_rec_pipeline_iter imagenet separ_args second_of_two None (RCBool true) false
    = (ws, Ok (train, Some val))
    ∧ separ_args !! "separ_val" = Some (VBool false)
    ∧ Forall (fun p => shard_id (input (val_reader p)) = 0
                       ∧ num_shards (input (val_reader p)) = 1) (pipelines val)
    ∧ dali_size val = 50000.
Proof.
  eexists _, _, _. split; [vm_compute; reflexivity|].
  split; [vm_compute; reflexivity|].
  edestruct (separ_val_by_presence imagenet separ_args second_of_two None
               (RCBool true) false)
    as (Hall & p0 & rest & Hpipes & Hsize).
  - vm_compute. reflexivity.
  - right. vm_compute. reflexivity.
  - split; [exact Hall|]. vm_compute. reflexivity.
Defined.

(** ** The synthetic iterator *)

Lemma synthetic_batches_fixed_witness :
  ∃ it0,
    SyntheticDataIter_init imagenet 1000 [VInt 10; VInt 3; VInt 224; VInt 224]
      (VInt 100) (VStr "float32") (VList [0]) (VStr "NCHW") = Ok it0
    ∧ ∀ n : nat,
        (∀ bs, Ok bs ∈ fst (next_n n it0) → bs = batches it0)
        ∧ reset (snd (next_n n it0)) = it0
        ∧ next (reset (snd (next_n n it0))) = next it0.
Proof.
  eexists. split; [vm_compute; reflexivity|].
  edestruct (synthetic_batches_fixed imagenet 1000 [VInt 10; VInt 3; VInt 224; VInt 224]
               (VInt 100) (VStr "float32") (VList [0]) (VStr "NCHW"))
    as (bsz & gpu_list & label_draw & data_draw & _ & _ & _ & _ & Hall).
  - vm_compute. reflexivity.
  - exact Hall.
Defined.

Lemma synthetic_iter_one_batch_more_witness :
  ∃ it0,
    SyntheticDataIter_init imagenet 1000 [VInt 16; VInt 3; VInt 224; VInt 224]
      (VInt 64) (VStr "float32") (VList [0; 1]) (VStr "NCHW") = Ok it0
    ∧ fst (next_n 4 it0)
      = [Ok (batches it0); Ok (batches it0); Ok (batches it0); Raise StopIteration].
Proof.
  eexists. split; [vm_compute; reflexivity|].
  eapply (synthetic_iter_one_batch_more imagenet 1000 [VInt 3; VInt 224; VInt 224]
            (VStr "float32") (VList [0; 1]) (VStr "NCHW") _ 64 16 [0; 1]).
  - vm_compute. reflexivity.
  - reflexivity.
  - vm_compute. reflexivity.
  - vm_compute. discriminate.
  - vm_compute. reflexivity.
Defined.

(** C10 at the configuration of the specification: synthetic mode, 100
    examples, batches of 10, one GPU, no distributed backend.  The pair
    returned holds a synthetic training iterator and [None]; the iterator
    returns 11 batches, not 10, before it raises [StopIteration]. *)
Theorem synthetic_run_returns_eleven_batches :
  ∃ it,
    get_rec_pipeline_iter imagenet synthetic_args None None (RCBool true) false
    = ([], Ok (SyntheticTrain it, None))
    ∧ batch_size it = VInt 10 ∧ epoch_size it = VInt 100 ∧ _num_gpus it = 1
    ∧ fst (next_n 12 it) = (replicate 11 (Ok (batches it)) ++ [Raise StopIteration])%list.
Proof.
  eexists. split; [vm_compute; reflexivity|].
  repeat split; vm_compute; reflexivity.
Qed.

(** * Further properties of the code *)

(** ** The argument merge: which defaults survive, and when it raises *)

Lemma mapM_Exists_Raise {A B} (f : A → result B) (l : list A) :
  Exists (fun x => is_Ok (f x) = false) l → is_Ok (mapM f l) = false.
Proof.
  induction 1 as [x xs Hx|x xs _ IH]; simpl.
  - now destruct (f x).
  - destruct (f x); [|reflexivity]. simpl. now destruct (mapM f xs).
Qed.

Lemma filter_sublist_of {A} (f : A → bool) (l : list A) : sublist (List.filter f l) l.
Proof.
  induction l as [|x xs IH]; simpl; [constructor|].
  destruct (f x); now constructor.
Qed.

(** A default option is registered exactly when no caller option is a
    synonym of it, and the survivors keep the order of [default_args]:
    the duplicate check drops nothing else. *)
Theorem default_survives_iff (task_args : list argspec) (d : argspec) :
  (d ∈ remaining_defaults task_args
   ↔ d ∈ default_args
     ∧ ∀ a, a ∈ task_args → are_synonyms (arg_name d) (arg_name a) = false)
  ∧ sublist (remaining_defaults task_args) default_args.
Proof.
  rewrite remaining_defaults_filter. split; [|apply filter_sublist_of].
  rewrite !list_elem_of_In, filter_In, negb_true_iff. unfold shadowed. split.
  - intros [Hd Hsh]. split; [exact Hd|]. intros a Ha.
    destruct (are_synonyms (arg_name d) (arg_name a)) eqn:E; [|reflexivity].
    rewrite <- Hsh. symmetry. apply existsb_exists. exists a.
    split; [now apply list_elem_of_In | exact E].
  - intros [Hd Hall]. split; [exact Hd|].
    destruct (existsb _ task_args) eqn:E; [|reflexivity].
    apply existsb_exists in E as (a & Ha & Hsyn). unfold synonym_of in Hsyn.
    rewrite (Hall a) in Hsyn by now apply list_elem_of_In. discriminate.
Qed.

(** The synonym of [--separ-val] is matched by substring: a caller
    option whose name occurs anywhere inside ["--dali-separ-val"]
    (["--dali-separ-val"] itself, but also ["--dali"] or ["-s"]) removes
    the default [--separ-val], so that no call registers it. *)
Theorem substring_drops_separ_val (task_args : list argspec)
    (calls : list add_argument_call) (a : argspec) :
  a ∈ task_args →
  contains (arg_name a) "--dali-separ-val" = true →
  add_dali_pipeline_args task_args = Ok calls →
  (∀ d, d ∈ remaining_defaults task_args → arg_name d ≠ "--separ-val")
  ∧ ∀ j call, calls !! j = Some call → call_name call = "--separ-val" →
              ∃ c, task_args !! j = Some c ∧ arg_name c = "--separ-val".
Proof.
  intros Ha Hsub Hcalls.
  assert (are_synonyms "--separ-val" (arg_name a) = true) as Hsyn.
  { unfold are_synonyms, synonyms_list, synonyms_lookup. cbn [fst snd].
    rewrite String.eqb_refl, Hsub. now destruct (String.eqb _ _). }
  assert (∀ d, d ∈ remaining_defaults task_args → arg_name d ≠ "--separ-val") as Hgone.
  { intros d Hd E.
    rewrite <- E in Hsyn.
    pose proof (remaining_defaults_unshadowed task_args d a Hd Ha). congruence. }
  split; [exact Hgone|].
  intros j call Hj Hname.
  pose proof (add_dali_pipeline_args_calls _ _ Hcalls) as Hall.
  destruct (Forall2_lookup_r _ _ _ _ _ Hall Hj) as (c & Hc & Hadd).
  apply add_argument_name in Hadd. rewrite Hname in Hadd.
  destruct (decide (j < length task_args)%nat) as [Hlt|Hge].
  - rewrite lookup_app_l in Hc by exact Hlt. eauto.
  - rewrite lookup_app_r in Hc by lia.
    apply list_elem_of_lookup_2 in Hc. exfalso. now apply (Hgone c Hc).
Qed.

(** [add_dali_pipeline_args] needs a list of full tuples.  Called with
    the declared default [task_args=None] it raises [TypeError] at the
    duplicate check, and with a caller tuple of one or two places it
    does not get to line 76: place 2 or 3 of that tuple is read for the
    call.  When it gets there, every caller tuple had its three places
    and one call has been made per caller option and per surviving
    default, in that order and under the option strings of the
    tuples. *)
Theorem registration_needs_full_tuples (task_args : option (list argspec)) :
  (task_args = None → add_dali_pipeline_args_call task_args = Raise TypeError)
  ∧ (∀ l, task_args = Some l →
          Exists (fun a => (length (arg_rest a) < 2)%nat) l →
          is_Ok (add_dali_pipeline_args_call task_args) = false)
  ∧ (∀ calls, add_dali_pipeline_args_call task_args = Ok calls →
        ∃ l, task_args = Some l
             ∧ Forall (fun a => (2 ≤ length (arg_rest a))%nat) l
             ∧ call_name <$> calls
               = ((arg_name <$> l) ++ (arg_name <$> remaining_defaults l))%list).
Proof.
  assert (∀ a, (length (arg_rest a) < 2)%nat → is_Ok (add_argument a) = false) as Hshort.
  { intros a. unfold add_argument.
    destruct (arg_rest a) as [|x1 [|x2 [|x3 xs]]]; simpl; (reflexivity || lia). }
  assert (∀ l, Exists (fun a => (length (arg_rest a) < 2)%nat) l →
               is_Ok (add_dali_pipeline_args l) = false) as Hraise.
  { intros l Hex. unfold add_dali_pipeline_args, merged_args. simpl. rewrite app_nil_r.
    apply mapM_Exists_Raise, Exists_app. left.
    eapply Exists_impl; [exact Hex|]. intros a Ha. now apply Hshort. }
  split; [now intros ->|]. split.
  - intros l -> Hex. simpl. now apply Hraise.
  - intros calls Hcalls. destruct task_args as [l|]; [|discriminate]. simpl in Hcalls.
    exists l. split; [reflexivity|]. split.
    + apply Forall_forall. intros a Ha.
      destruct (decide (2 ≤ length (arg_rest a))%nat) as [|Hlt]; [assumption|].
      exfalso. assert (is_Ok (add_dali_pipeline_args l) = false) as Hno.
      { apply Hraise, Exists_exists. exists a. split; [exact Ha | lia]. }
      rewrite Hcalls in Hno. discriminate.
    + pose proof (add_dali_pipeline_args_calls _ _ Hcalls) as Hall.
      rewrite <- fmap_app.
      apply list_eq. intros i. rewrite !list_lookup_fmap.
      destruct (calls !! i) as [call|] eqn:Hi; simpl.
      * destruct (Forall2_lookup_r _ _ _ _ _ Hall Hi) as (a & Ha & Hadd).
        rewrite Ha. simpl. f_equal. now apply add_argument_name.
      * apply lookup_ge_None in Hi.
        rewrite <- (Forall2_length _ _ _ Hall) in Hi.
        apply lookup_ge_None in Hi. now rewrite Hi.
Qed.

(** ** The descriptors [provide_data] and [provide_label] *)

Section Descriptors.
Context {pyfloat nparray : Type}.

Abbreviation SyntheticDataIter := (@SyntheticDataIter pyfloat nparray).
Abbreviation pyval := (@pyval pyfloat).

Fixpoint str_repeat (s : string) (n : nat) : string :=
  match n with
  | O => ""
  | S n' => (s ++ str_repeat s n')%string
  end.

(** [v * k] for an integer [k]: the product of integers, or the
    sequence repeated [k] times (not at all for [k <= 0]). *)
Definition mul_int (v : pyval) (k : Z) : result pyval :=
  match v with
  | VNone => Raise TypeError
  | VBool b => Ok (VInt (Z_of_bool b * k))
  | VInt z => Ok (VInt (z * k))
  | VStr s => Ok (VStr (str_repeat s (Z.to_nat k)))
  | VTuple t => Ok (VTuple (concat (replicate (Z.to_nat k) t)))
  | VList l => Ok (VList (concat (replicate (Z.to_nat k) l)))
  | VFloats l => Ok (VFloats (concat (replicate (Z.to_nat k) l)))
  end.

(** [mx.io.DataDesc(name, shape, dtype, layout='NCHW')]: a call that
    leaves the layout out gets ['NCHW']. *)
Record DataDesc : Type := {
  desc_name : string;
  desc_shape : list pyval;
  desc_dtype : pyval;
  desc_layout : pyval
}.

Definition DataDesc_default_layout : pyval := VStr "NCHW".

(** The iterator keeps the items of [data_shape]; line 210 depends on
    its type as well, since it adds the slice [data_shape[1:]] to a
    tuple. *)
Inductive seq_type : Set := tuple_type | list_type.

(** [(x,) + rest] for a slice [rest] of a sequence of type [t]. *)
Definition tuple_plus_slice (x : pyval) (t : seq_type) (rest : list pyval)
    : result (list pyval) :=
  match t with
  | tuple_type => Ok (x :: rest)
  | list_type => Raise TypeError
  end.

(** [provide_data] of an iterator whose [data_shape] is of type
    [data_shape_type]. *)
Definition provide_data (data_shape_type : seq_type) (self : SyntheticDataIter)
    : result (list DataDesc) :=
  match data_shape self with
  | [] => Raise IndexError
  | d0 :: rest =>
      lead ← mul_int d0 (_num_gpus self);
      data_shape ← tuple_plus_slice lead data_shape_type rest;
      Ok [ {| desc_name := "data"; desc_shape := data_shape;
              desc_dtype := dtype self; desc_layout := layout self |} ]
  end.

Definition provide_label (self : SyntheticDataIter) : result (list DataDesc) :=
  lead ← mul_int (batch_size self) (_num_gpus self);
  Ok [ {| desc_name := "softmax_label"; desc_shape := [lead];
          desc_dtype := np_float32; desc_layout := DataDesc_default_layout |} ].

(** ** Calls of [next] *)

Lemma moved_fields (it it' : SyntheticDataIter) :
  moved it it' →
  batch_size it' = batch_size it ∧ epoch_size it' = epoch_size it
  ∧ _num_gpus it' = _num_gpus it ∧ data_shape it' = data_shape it
  ∧ dtype it' = dtype it ∧ layout it' = layout it.
Proof. intros [c ->]. simpl. repeat split. Qed.

Lemma next_raise_same (it : SyntheticDataIter) (e : exn) :
  fst (next it) = Raise e → snd (next it) = it.
Proof.
  unfold next.
  destruct (as_int (epoch_size it)) as [budget|e1]; [|reflexivity].
  destruct (cur_sample it <=? budget); [|reflexivity].
  destruct (as_int (batch_size it)) as [b|e2]; [discriminate | reflexivity].
Qed.

Lemma next_n_raise (it : SyntheticDataIter) (e : exn) (n : nat) :
  fst (next it) = Raise e →
  fst (next_n n it) = replicate n (Raise e) ∧ snd (next_n n it) = it.
Proof.
  intros H. pose proof (next_raise_same it e H) as Hsame.
  induction n as [|n [IHr IHs]]; [split; reflexivity|].
  rewrite next_n_S, H, Hsame. simpl. rewrite IHr, IHs. split; reflexivity.
Qed.

(** A call of [next] that raises leaves the iterator as it was, so every
    later call raises the same exception until [reset]: [StopIteration]
    stays, and so does the [TypeError] of a budget or batch size that is
    no integer. *)
Theorem next_raise_is_stable (it : SyntheticDataIter) (e : exn) :
  fst (next it) = Raise e →
  snd (next it) = it
  ∧ ∀ n : nat, fst (next_n n it) = replicate n (Raise e) ∧ snd (next_n n it) = it.
Proof.
  intros H. split; [now apply next_raise_same with e|].
  intros n. now apply next_n_raise.
Qed.

(** From the constructed state, with integer budget [E], batch size [B]
    and a positive step [B*G], the call number [k+1] returns the batches
    exactly when [k*B*G <= E]; otherwise it raises [StopIteration]. *)
Theorem next_call_returns_iff (W : @World pyfloat nparray) (num_classes : Z)
    (shape : list pyval) (dt g lay : pyval) (it0 : SyntheticDataIter) (E B : Z)
    (gpu_list : list Z) :
  SyntheticDataIter_init W num_classes (VInt B :: shape) (VInt E) dt g lay = Ok it0 →
  seq_items g = Ok gpu_list →
  0 < B * Z.of_nat (length gpu_list) →
  ∀ n k : nat, (k < n)%nat →
    fst (next_n n it0) !! k
    = Some (if Z.of_nat k * (B * Z.of_nat (length gpu_list)) <=? E
            then Ok (batches it0) else Raise StopIteration).
Proof.
  intros H Hg Hstep n k Hk.
  apply SyntheticDataIter_init_inv in H
    as (bsz & gl & label_draw & data_draw & Hb & Hg' & _ & _ & Hit).
  rewrite Hg in Hg'. injection Hg' as <-. injection Hb as <-.
  assert (epoch_size it0 = VInt E ∧ batch_size it0 = VInt B ∧ cur_sample it0 = 0
          ∧ _num_gpus it0 = Z.of_nat (length gpu_list)) as (HE & HB & Hc & HG)
    by (rewrite Hit; auto).
  rewrite (next_n_lookup n k it0 E B HE HB) by (rewrite ?HG; assumption).
  now rewrite Hc, HG.
Qed.

(** With a negative budget, the default [-1] of [--num_examples]
    included, the iterator serves nothing: every call raises
    [StopIteration], whatever the batch size and the devices. *)
Theorem negative_budget_serves_nothing (W : @World pyfloat nparray) (num_classes : Z)
    (shape : list pyval) (dt g lay : pyval) (it0 : SyntheticDataIter) (E : Z) :
  SyntheticDataIter_init W num_classes shape (VInt E) dt g lay = Ok it0 →
  E < 0 →
  ∀ n : nat, fst (next_n n it0) = replicate n (Raise StopIteration)
             ∧ snd (next_n n it0) = it0.
Proof.
  intros H HE.
  apply SyntheticDataIter_init_inv in H
    as (bsz & gl & label_draw & data_draw & _ & _ & _ & _ & Hit).
  intros n. apply next_n_raise. rewrite Hit. unfold next. simpl.
  now destruct (Z.leb_spec 0 E); [lia|].
Qed.

(** With a step [B*G] of zero, as for an empty GPU list or a batch size
    of 0, and a budget [E >= 0], the iterator never stops: every call
    returns the batches (none at all for an empty GPU list) and the
    counter stays at 0. *)
Theorem zero_step_never_stops (W : @World pyfloat nparray) (num_classes : Z)
    (shape : list pyval) (dt g lay : pyval) (it0 : SyntheticDataIter) (E B : Z)
    (gpu_list : list Z) :
  SyntheticDataIter_init W num_classes (VInt B :: shape) (VInt E) dt g lay = Ok it0 →
  seq_items g = Ok gpu_list →
  B * Z.of_nat (length gpu_list) = 0 → 0 ≤ E →
  ∀ n : nat, fst (next_n n it0) = replicate n (Ok (batches it0))
             ∧ snd (next_n n it0) = it0
             ∧ length (batches it0) = length gpu_list.
Proof.
  intros H Hg Hstep HE.
  apply SyntheticDataIter_init_inv in H
    as (bsz & gl & label_draw & data_draw & Hb & Hg' & _ & _ & Hit).
  rewrite Hg in Hg'. injection Hg' as <-. injection Hb as <-.
  assert (next it0 = (Ok (batches it0), it0)) as Hnext.
  { rewrite Hit. unfold next. simpl.
    destruct (Z.leb_spec 0 E); [|lia]. rewrite Hstep. reflexivity. }
  assert (length (batches it0) = length gpu_list) as Hlen.
  { rewrite Hit, batches_init. apply length_map. }
  induction n as [|n (IHr & IHs & _)]; [repeat split; auto|].
  rewrite next_n_S, Hnext. simpl. rewrite IHr, IHs. repeat split; auto.
Qed.

(** The descriptors do not change during iteration and agree with what
    [next] does: for an integer batch size [B] and [G] devices both
    declare a leading dimension of [B*G]; the data descriptor of a tuple
    [data_shape] keeps the other dimensions, the dtype and the layout
    given at construction, while for a list [data_shape] the property
    raises [TypeError]; the label descriptor is of [float32] with the
    layout ['NCHW'] that [DataDesc] fills in; and a call of [next] that
    returns hands out [G] batches and moves the counter by [B*G]. *)
Theorem descriptors_match_step (W : @World pyfloat nparray) (num_classes : Z)
    (shape : list pyval) (E dt g lay : pyval) (it0 : SyntheticDataIter) (B : Z)
    (gpu_list : list Z) :
  SyntheticDataIter_init W num_classes (VInt B :: shape) E dt g lay = Ok it0 →
  seq_items g = Ok gpu_list →
  let step := B * Z.of_nat (length gpu_list) in
  ∀ n : nat,
    let it := snd (next_n n it0) in
    provide_data tuple_type it
    = Ok [ {| desc_name := "data"; desc_shape := VInt step :: shape;
              desc_dtype := dt; desc_layout := lay |} ]
    ∧ provide_data list_type it = Raise TypeError
    ∧ provide_label it
      = Ok [ {| desc_name := "softmax_label"; desc_shape := [VInt step];
                desc_dtype := np_float32; desc_layout := VStr "NCHW" |} ]
    ∧ ∀ bs, fst (next it) = Ok bs →
            length bs = length gpu_list
            ∧ cur_sample (snd (next it)) = cur_sample it + step.
Proof.
  intros H Hg step n it.
  apply SyntheticDataIter_init_inv in H
    as (bsz & gl & label_draw & data_draw & Hb & Hg' & _ & _ & Hit).
  rewrite Hg in Hg'. injection Hg' as <-. injection Hb as <-.
  pose proof (next_n_moved n it0) as Hmoved. fold it in Hmoved.
  pose proof (moved_batches _ _ Hmoved) as Hbatches.
  apply moved_fields in Hmoved as (Hbs & Hes & Hng & Hds & Hdt & Hlay).
  assert (batch_size it0 = VInt B ∧ _num_gpus it0 = Z.of_nat (length gpu_list)
          ∧ data_shape it0 = VInt B :: shape ∧ dtype it0 = dt ∧ layout it0 = lay)
    as (HB & HG & HS & HD & HL) by (rewrite Hit; repeat split).
  split; [|split; [|split]].
  - unfold provide_data. rewrite Hds, HS, Hng, HG, Hdt, HD, Hlay, HL. reflexivity.
  - unfold provide_data. rewrite Hds, HS, Hng, HG. reflexivity.
  - unfold provide_label. rewrite Hbs, HB, Hng, HG. reflexivity.
  - intros bs Hnext. split.
    + apply next_Ok in Hnext. rewrite Hnext, Hbatches, Hit, batches_init.
      apply length_map.
    + revert Hnext. unfold next. rewrite Hbs, HB, Hng, HG.
      destruct (as_int (epoch_size it)) as [budget|e1]; [|discriminate].
      destruct (cur_sample it <=? budget); [|discriminate]. reflexivity.
Qed.

End Descriptors.

(** ** What [get_rec_pipeline_iter] hands to the pipelines *)

Section Assembly.
Context {pyfloat nparray : Type} `{RT : PyRuntime pyfloat}.

Abbreviation World := (@World pyfloat nparray).
Abbreviation pyval := (@pyval pyfloat).

Tactic Notation "ok_bind" hyp(H) "as" ident(x) ident(Hx) :=
  apply bind_Ok in H as (x & Hx & H).

Lemma ImageMethods_init_inv padding crop out_layout pad_out (dt : pyval) rc rr
    (args : option (gmap string pyval)) dali_cpu m :
  ImageMethods_init padding crop out_layout pad_out dt rc rr args dali_cpu = Ok m →
  ∃ rgb_mean rgb_std,
    get_attribute args "rgb_mean" (VFloats _mean_pixel) = Ok rgb_mean
    ∧ get_attribute args "rgb_std" (VFloats _std_pixel) = Ok rgb_std
    ∧ cmnp m = {| cmnp_device := "gpu";
                  cmnp_dtype := if eq_str dt "float16" then FLOAT16 else FLOAT;
                  cmnp_output_layout := out_layout;
                  cmnp_crop := crop;
                  cmnp_pad_output := pad_out;
                  mean := rgb_mean;
                  std := rgb_std |}
    ∧ (random_crop_truthy rc = true → args = None → rc = RCBool true).
Proof.
  unfold ImageMethods_init. intros H.
  ok_bind H as dec Hdec. ok_bind H as res Hres.
  ok_bind H as rgb_mean Hmean. ok_bind H as rgb_std Hstd.
  injection H as <-. exists rgb_mean, rgb_std. repeat split; try assumption.
  intros Htruthy ->. rewrite Htruthy in Hdec.
  destruct rc as [|[|]|n]; try discriminate; reflexivity.
Qed.

(** Every training pipeline, field by field. *)
Lemma trainpipes_of_fields (args : gmap string pyval) batch threads rec_path idx_path
    gpu_list rank shards shape out_layout pad_out padding dali_cpu rc prop_args name ps :
  trainpipes_of args batch threads rec_path idx_path gpu_list rank shards shape
    out_layout pad_out padding dali_cpu rc prop_args name = Ok ps →
  length ps = length gpu_list
  ∧ Forall (fun p =>
              pipe_batch_size (train_pipeline p) = batch
              ∧ num_threads (train_pipeline p) = threads
              ∧ seed (train_pipeline p) = 12 + device_id (train_pipeline p)
              ∧ reader_name (train_reader p) = (if nonempty name then name else _Reader)
              ∧ path (input (train_reader p)) = [rec_path]
              ∧ index_path (input (train_reader p)) = [idx_path]
              ∧ random_shuffle (input (train_reader p)) = true
              ∧ ∃ dt,
                  getattr args "dtype" = Ok dt
                  ∧ getattr args "dali_prefetch_queue"
                    = Ok (prefetch_queue_depth (train_pipeline p))
                  ∧ ImageMethods_init padding (drop 1 shape) out_layout pad_out dt rc
                      (negb (random_crop_truthy rc))
                      (if prop_args then Some args else None) dali_cpu
                    = Ok (train_methods p)) ps.
Proof.
  unfold trainpipes_of. intros H. apply mapM_Ok in H.
  split; [symmetry; eapply Forall2_length, H|].
  eapply Forall2_Forall_r; [exact H|]. apply Forall_forall.
  intros gpu_id _ p Hp. simpl in Hp.
  ok_bind Hp as sh Hsh. ok_bind Hp as dt Hdt. ok_bind Hp as pq Hpq.
  unfold HybridTrainPipe_init in Hp. ok_bind Hp as m Hm. injection Hp as <-.
  simpl. repeat split. exists dt. auto.
Qed.

(** Every validation pipeline, field by field. *)
Lemma valpipes_of_fields (args : gmap string pyval) batch threads rec_path idx_path
    gpu_list rank shards shape resize_shp out_layout pad_out padding dali_cpu prop_args
    name separ ps :
  valpipes_of args batch threads rec_path idx_path gpu_list rank shards shape resize_shp
    out_layout pad_out padding dali_cpu prop_args name separ = Ok ps →
  length ps = length gpu_list
  ∧ Forall (fun p =>
              pipe_batch_size (val_pipeline p) = batch
              ∧ num_threads (val_pipeline p) = threads
              ∧ reader_name (val_reader p) = (if nonempty name then name else _Reader)
              ∧ path (input (val_reader p)) = [rec_path]
              ∧ random_shuffle (input (val_reader p)) = false
              ∧ resize (val_methods p)
                = (if truthy resize_shp then Some (ResizeShorter "gpu" resize_shp)
                   else None)
              ∧ ∃ dt m,
                  getattr args "dtype" = Ok dt
                  ∧ ImageMethods_init padding (drop 1 shape) out_layout pad_out dt RCNone
                      (match dali_cpu with None => true | Some _ => false end)
                      (if prop_args then Some args else None) dali_cpu
                    = Ok m
                  ∧ cmnp (val_methods p) = cmnp m
                  ∧ decode (val_methods p) = decode m) ps.
Proof.
  unfold valpipes_of. intros H. apply mapM_Ok in H.
  split; [symmetry; eapply Forall2_length, H|].
  eapply Forall2_Forall_r; [exact H|]. apply Forall_forall.
  intros gpu_id _ p Hp. simpl in Hp.
  ok_bind Hp as sh Hsh. ok_bind Hp as dt Hdt. ok_bind Hp as pq Hpq.
  unfold HybridValPipe_init in Hp. ok_bind Hp as m Hm. injection Hp as <-.
  simpl. repeat split. exists dt, m. auto.
Qed.

(** The arguments that a successful [build_pipes] has read and the
    pipelines it has made of them. *)
Lemma build_pipes_full (W : World) (args : gmap string pyval) kv dali_cpu rc prop_args
    (target_shape gpus batch_size : pyval) b :
  build_pipes W args kv dali_cpu rc prop_args target_shape gpus batch_size = Ok b →
  ∃ shape c gpu_list threads layout_v batch pad_v pad_z rec_path idx_path,
    seq_items target_shape = Ok shape
    ∧ head shape = Some c
    ∧ getattr args "dali_threads" = Ok threads
    ∧ getattr args "input_layout" = Ok layout_v
    ∧ seq_items gpus = Ok gpu_list
    ∧ workers_of W args kv = Ok (built_rank b, built_nWrk b)
    ∧ built_reader_name b = match reader_of args with Some s => s | None => _Reader end
    ∧ path_of args "data_train" "/train.rec" = Ok rec_path
    ∧ path_of args "data_train_idx" "/train.idx" = Ok idx_path
    ∧ (if negb (dali_cpu_truthy dali_cpu) then
         n ← as_int batch_size;
         per_worker ← floordiv n (built_nWrk b);
         per_gpu ← floordiv per_worker (Z.of_nat (length gpu_list));
         Ok (VInt per_gpu)
       else Ok batch_size) = Ok batch
    ∧ getattr args "dali_nvjpeg_memory_padding" = Ok pad_v
    ∧ as_int pad_v = Ok pad_z
    ∧ trainpipes_of args batch threads rec_path idx_path gpu_list (built_rank b)
        (Z.of_nat (length gpu_list) * built_nWrk b) shape
        (if eq_str layout_v "NHWC" then NHWC else NCHW) (c =? 4) (pad_z * 1024 * 1024)
        dali_cpu rc prop_args (built_reader_name b) = Ok (trainpipes b)
    ∧ trainpipes b ≠ []
    ∧ match built_val b with
      | Some v =>
          val_flg_of args = true
          ∧ separ_val_flag v = separ_val_flag_of args
          ∧ ∃ vthreads rec_path' idx_path' resize_shp,
              (if hasattr args "dali_validation_threads"
               then getattr args "dali_validation_threads" else Ok threads) = Ok vthreads
              ∧ path_of args "data_val" "/val.rec" = Ok rec_path'
              ∧ path_of args "data_val_idx" "/val.idx" = Ok idx_path'
              ∧ (if hasattr args "resize"
                 then r ← getattr args "resize"; z ← py_int r; Ok (VInt z)
                 else getattr args "data_val_resize") = Ok resize_shp
              ∧ valpipes_of args batch vthreads rec_path' idx_path' gpu_list (built_rank b)
                  (Z.of_nat (length gpu_list) * built_nWrk b) shape resize_shp
                  (if eq_str layout_v "NHWC" then NHWC else NCHW) (c =? 4)
                  (pad_z * 1024 * 1024) dali_cpu prop_args (built_reader_name b)
                  (separ_val_flag v) = Ok (valpipes v)
      | None => val_flg_of args = false
      end.
Proof.
  unfold build_pipes. intros H.
  ok_bind H as shape Hshape. ok_bind H as pad_out Hpad.
  ok_bind H as threads Hthreads. ok_bind H as vthreads Hvthreads.
  ok_bind H as input_layout Hlayout. ok_bind H as w Hw. destruct w as [rank nWrk].
  ok_bind H as gpu_list Hgpus. ok_bind H as rec_path Hrec. ok_bind H as idx_path Hidx.
  ok_bind H as batch Hbatch. ok_bind H as p0 Hp0. ok_bind H as padding Hpadding.
  ok_bind H as tps Htps. ok_bind H as val Hval. ok_bind H as tp0 Htp0.
  ok_bind H as vb Hvb.
  injection H as <-. simpl.
  destruct shape as [|c shape']; [discriminate|]. injection Hpad as <-.
  exists (c :: shape'), c, gpu_list, threads, input_layout, batch, p0, padding,
    rec_path, idx_path.
  repeat split; try assumption.
  - destruct tps; [discriminate | congruence].
  - destruct val as [[vps separ]|]; simpl in *.
    + destruct vps as [|vp vps]; [discriminate|]. injection Hvb as <-. simpl.
      destruct (val_flg_of args); [|discriminate].
      ok_bind Hval as v Hv. injection Hval as ->.
      unfold build_val in Hv.
      ok_bind Hv as rec_path' Hrec'. ok_bind Hv as idx_path' Hidx'.
      ok_bind Hv as resize_shp Hresize. ok_bind Hv as vps' Hvps.
      injection Hv as -> <-. repeat split.
      exists vthreads, rec_path', idx_path', resize_shp. auto.
    + injection Hvb as <-. destruct (val_flg_of args); [|reflexivity].
      ok_bind Hval as v Hv. discriminate.
Qed.

(** A returned DALI pair, traced back through the stages. *)
Lemma dali_return_inv (W : World) (args : gmap string pyval) kv dali_cpu rc prop_args
    ws it val :
  get_rec_pipeline_iter W args kv dali_cpu rc prop_args = (ws, Ok (DALITrain it, val)) →
  ∃ target_shape gpus batch_size b train_size val_size,
    read_inputs W args = Ok (target_shape, gpus, batch_size)
    ∧ synthetic_flag args = false
    ∧ build_pipes W args kv dali_cpu rc prop_args target_shape gpus batch_size = Ok b
    ∧ check_num_examples W args b = Ok ws
    ∧ it = {| pipelines := trainpipes b; dali_size := train_size;
              dali_reader_name := reader_of args; fill_last_batch := None |}
    ∧ val = match built_val b with
            | Some v => Some {| pipelines := valpipes v; dali_size := val_size;
                                dali_reader_name := reader_of args;
                                fill_last_batch := Some false |}
            | None => None
            end
    ∧ match reader_of args with
      | None =>
          (∃ n, getattr args "num_examples" ≫= as_int = Ok n
                ∧ floordiv n (built_nWrk b) = Ok train_size)
          ∧ match built_val b with
            | Some v => val_size_of W b v = Ok val_size
            | None => val_size = -1
            end
      | Some _ => train_size = -1 ∧ val_size = -1
      end.
Proof.
  intros H. apply get_rec_pipeline_iter_inv in H as (ts & g & bs & Hin & H).
  destruct H as [(_ & _ & _ & it' & _ & Hit)|(Hsyn & b & Hb & Hc & Hm)]; [discriminate|].
  apply make_iters_inv in Hm as (train_size & val_size & Ht & Hval & Hsizes).
  injection Ht as ->.
  exists ts, g, bs, b, train_size, val_size. repeat split; assumption.
Qed.

Lemma floordiv_inv (a b q : Z) : floordiv a b = Ok q → b ≠ 0 ∧ q = a / b.
Proof.
  unfold floordiv. destruct (Z.eqb_spec b 0); [discriminate|].
  intros [= <-]. auto.
Qed.

Lemma getattr_hasattr (args : gmap string pyval) (name : string) (v : pyval) :
  getattr args name = Ok v → hasattr args name = true.
Proof. unfold getattr, hasattr. now destruct (args !! name). Qed.


(** Outside CPU mode every pipeline, training and validation alike,
    gets the batch size [args.batch_size // nWrk // len(gpus)], floor
    division twice; with a truthy [dali_cpu] every pipeline gets
    [args.batch_size] as it is. *)
Theorem pipelines_share_batch_size (W : World) (args : gmap string pyval) kv dali_cpu rc
    prop_args ws it val (gpu_list : list Z) (rank nWrk : Z) (bs : pyval) :
  get_rec_pipeline_iter W args kv dali_cpu rc prop_args = (ws, Ok (DALITrain it, val)) →
  gpus_of W args ≫= seq_items = Ok gpu_list →
  workers_of W args kv = Ok (rank, nWrk) →
  getattr args "batch_size" = Ok bs →
  ∃ batch,
    (if dali_cpu_truthy dali_cpu then batch = bs
     else ∃ n, as_int bs = Ok n ∧ nWrk ≠ 0 ∧ gpu_list ≠ []
               ∧ batch = VInt (n / nWrk / Z.of_nat (length gpu_list)))
    ∧ Forall (fun p => pipe_batch_size (train_pipeline p) = batch) (pipelines it)
    ∧ ∀ v, val = Some v →
           Forall (fun p => pipe_batch_size (val_pipeline p) = batch) (pipelines v).
Proof.
  intros H Hgpus Hw Hbs.
  apply dali_return_inv in H
    as (ts & g & bs' & b & tsz & vsz & Hin & _ & Hb & _ & -> & -> & _).
  apply read_inputs_inv in Hin as (_ & Hg & Hbs').
  rewrite Hbs in Hbs'. injection Hbs' as <-.
  rewrite Hg in Hgpus. simpl in Hgpus.
  apply build_pipes_full in Hb
    as (shape & c & gl & th & lay & batch & pv & pz & rec & idx & _ & _ & _ & _ & Hgl
        & Hw' & _ & _ & _ & Hbatch & _ & _ & Htp & _ & Hval).
  rewrite Hgpus in Hgl. injection Hgl as <-.
  rewrite Hw in Hw'. injection Hw' as Hrank HnWrk.
  exists batch. split; [|split].
  - destruct (dali_cpu_truthy dali_cpu); simpl in Hbatch; [now injection Hbatch|].
    ok_bind Hbatch as n Hn. ok_bind Hbatch as q Hq. ok_bind Hbatch as r Hr.
    injection Hbatch as <-.
    apply floordiv_inv in Hq as [HnW ->]. apply floordiv_inv in Hr as [Hlen ->].
    exists n. rewrite HnWrk. repeat split; try assumption.
    intros ->. now apply Hlen.
  - simpl. apply trainpipes_of_fields in Htp as [_ Htp].
    eapply Forall_impl; [exact Htp|]. now intros p (Hp & _).
  - intros v Hv. destruct (built_val b) as [vb|]; [|discriminate].
    injection Hv as <-. simpl.
    destruct Hval as (_ & _ & vth & rec' & idx' & rshp & _ & _ & _ & _ & Hvp).
    apply valpipes_of_fields in Hvp as [_ Hvp].
    eapply Forall_impl; [exact Hvp|]. now intros p (Hp & _).
Qed.

(** Outside synthetic mode an empty GPU list never gives a result:
    [trainpipes[0]] does not exist, when the division by [len(gpus)] has
    not raised before. *)
Theorem empty_gpu_list_never_returns (W : World) (args : gmap string pyval) kv dali_cpu rc
    prop_args :
  synthetic_flag args = false →
  gpus_of W args ≫= seq_items = Ok [] →
  is_Ok (snd (get_rec_pipeline_iter W args kv dali_cpu rc prop_args)) = false.
Proof.
  intros Hsyn Hgpus.
  destruct (get_rec_pipeline_iter W args kv dali_cpu rc prop_args) as [ws [[train val]|e]]
    eqn:Hrun; [|reflexivity].
  exfalso.
  apply get_rec_pipeline_iter_inv in Hrun as (ts & g & bs & Hin & Hrun).
  destruct Hrun as [(Hsyn' & _)|(_ & b & Hb & _)]; [congruence|].
  apply read_inputs_inv in Hin as (_ & Hg & _).
  rewrite Hg in Hgpus. simpl in Hgpus.
  apply build_pipes_full in Hb
    as (shape & c & gl & th & lay & batch & pv & pz & rec & idx & _ & _ & _ & _ & Hgl
        & _ & _ & _ & _ & _ & _ & _ & Htp & Hne & _).
  rewrite Hgpus in Hgl. injection Hgl as <-.
  apply trainpipes_of_fields in Htp as [Hlen _].
  destruct (trainpipes b); [now apply Hne | discriminate].
Qed.

(** A non-empty tuple or list as [random_crop], which the docstring
    offers for the aspect ratio, the area and the number of attempts,
    never gives a result unless the arguments are propagated
    ([prop_args]): [ImageMethods.__init__] reads its local name [len]
    before binding it. *)
Theorem tuple_random_crop_never_returns (W : World) (args : gmap string pyval) kv dali_cpu
    (n : nat) :
  synthetic_flag args = false →
  is_Ok (snd (get_rec_pipeline_iter W args kv dali_cpu (RCSeq (S n)) false)) = false.
Proof.
  intros Hsyn.
  destruct (get_rec_pipeline_iter W args kv dali_cpu (RCSeq (S n)) false)
    as [ws [[train val]|e]] eqn:Hrun; [|reflexivity].
  exfalso.
  apply get_rec_pipeline_iter_inv in Hrun as (ts & g & bs & Hin & Hrun).
  destruct Hrun as [(Hsyn' & _)|(_ & b & Hb & _)]; [congruence|].
  apply build_pipes_full in Hb
    as (shape & c & gl & th & lay & batch & pv & pz & rec & idx & _ & _ & _ & _ & _
        & _ & _ & _ & _ & _ & _ & _ & Htp & Hne & _).
  apply trainpipes_of_fields in Htp as [_ Htp].
  destruct (trainpipes b) as [|p ps]; [now apply Hne|].
  apply Forall_cons in Htp as [(_ & _ & _ & _ & _ & _ & _ & dt & _ & _ & Hm) _].
  apply ImageMethods_init_inv in Hm as (_ & _ & _ & _ & _ & Hrc).
  specialize (Hrc eq_refl eq_refl). discriminate.
Qed.

(** A DALI run returns a validation iterator exactly when [args] has a
    [data_val] that is not [None] and no truthy [no_val]; it then holds
    one validation pipeline per training pipeline and is made with
    [fill_last_batch=False]. *)
Theorem validation_iff_data_val (W : World) (args : gmap string pyval) kv dali_cpu rc
    prop_args ws it val :
  get_rec_pipeline_iter W args kv dali_cpu rc prop_args = (ws, Ok (DALITrain it, val)) →
  (is_Some val
   ↔ (∃ v, args !! "data_val" = Some v ∧ v ≠ VNone)
     ∧ ∀ v, args !! "no_val" = Some v → truthy v = false)
  ∧ ∀ v, val = Some v →
         length (pipelines v) = length (pipelines it)
         ∧ fill_last_batch v = Some false.
Proof.
  intros H.
  apply dali_return_inv in H
    as (ts & g & bs' & b & tsz & vsz & _ & _ & Hb & _ & -> & -> & _).
  apply build_pipes_full in Hb
    as (shape & c & gl & th & lay & batch & pv & pz & rec & idx & _ & _ & _ & _ & _
        & _ & _ & _ & _ & _ & _ & _ & Htp & _ & Hval).
  assert (val_flg_of args = true
          ↔ (∃ v, args !! "data_val" = Some v ∧ v ≠ VNone)
            ∧ ∀ v, args !! "no_val" = Some v → truthy v = false) as Hflg.
  { unfold val_flg_of. rewrite andb_true_iff, negb_true_iff. split.
    - intros [Hd Hn]. split.
      + destruct (args !! "data_val") as [v|]; [|discriminate].
        exists v. split; [reflexivity|]. intros ->. discriminate.
      + intros v Hv. now rewrite Hv in Hn.
    - intros [(v & Hv & Hne) Hn]. rewrite Hv. split.
      + now destruct v.
      + destruct (args !! "no_val") as [w|]; [now apply Hn | reflexivity]. }
  split.
  - rewrite <- Hflg. destruct (built_val b) as [vb|].
    + split; [intros _; apply Hval | intros _; eauto].
    + split; [intros [x Hx]; discriminate | intros E; congruence].
  - intros v Hv. destruct (built_val b) as [vb|]; [|discriminate].
    injection Hv as <-. simpl. split; [|reflexivity].
    destruct Hval as (_ & _ & vth & rec' & idx' & rshp & _ & _ & _ & _ & Hvp).
    apply valpipes_of_fields in Hvp as [Hlv _].
    apply trainpipes_of_fields in Htp as [Hlt _]. congruence.
Qed.


Lemma synthetic_iter_inv (W : World) (args : gmap string pyval)
    (ts g bs : pyval) it :
  synthetic_iter W args ts g bs = Ok it →
  ∃ gpu_list,
    seq_items g = Ok gpu_list
    ∧ batch_size it = bs
    ∧ getattr args "num_examples" = Ok (epoch_size it)
    ∧ getattr args "dtype" = Ok (dtype it)
    ∧ getattr args "input_layout" = Ok (layout it)
    ∧ cur_sample it = 0
    ∧ gpus it = gpu_list
    ∧ _num_gpus it = Z.of_nat (length gpu_list)
    ∧ length (data it) = length gpu_list
    ∧ length (label it) = length gpu_list.
Proof.
  unfold synthetic_iter. intros H.
  ok_bind H as lay Hlay. ok_bind H as ts' Hts. ok_bind H as shape Hshape.
  ok_bind H as E HE. ok_bind H as dt Hdt. ok_bind H as lay' Hlay'.
  apply SyntheticDataIter_init_inv in H
    as (bsz & gl & label_draw & data_draw & Hb & Hg & _ & _ & ->).
  exists gl. simpl. rewrite !length_map.
  destruct ts'; try discriminate. injection Hshape as <-. injection Hb as <-.
  repeat split; assumption.
Qed.

(** In synthetic mode the key-value store, [dali_cpu], [random_crop] and
    [prop_args] play no part; no warning is issued and no validation
    iterator returned, whatever [args] says about validation; and the
    iterator returned starts at sample 0 with [args.num_examples] as its
    budget and the whole [args.batch_size] as its batch size per device:
    unlike the batch size of the DALI pipelines it is not divided by the
    workers and the GPUs. *)
Theorem synthetic_mode_ignores_workers (W : World) (args : gmap string pyval)
    kv dali_cpu rc prop_args kv' dali_cpu' rc' prop_args' :
  synthetic_flag args = true →
  get_rec_pipeline_iter W args kv dali_cpu rc prop_args
  = get_rec_pipeline_iter W args kv' dali_cpu' rc' prop_args'
  ∧ fst (get_rec_pipeline_iter W args kv dali_cpu rc prop_args) = []
  ∧ ∀ train val,
      snd (get_rec_pipeline_iter W args kv dali_cpu rc prop_args) = Ok (train, val) →
      val = None
      ∧ ∃ it gpu_list,
          train = SyntheticTrain it
          ∧ gpus_of W args ≫= seq_items = Ok gpu_list
          ∧ length (batches it) = length gpu_list
          ∧ getattr args "batch_size" = Ok (batch_size it)
          ∧ getattr args "num_examples" = Ok (epoch_size it)
          ∧ cur_sample it = 0.
Proof.
  intros Hsyn. unfold get_rec_pipeline_iter. rewrite Hsyn.
  destruct (read_inputs W args) as [[[ts g] bs]|e] eqn:Hin; simpl.
  - split; [reflexivity|]. split; [reflexivity|].
    intros train val H. ok_bind H as it Hit. injection H as <- <-.
    split; [reflexivity|].
    apply read_inputs_inv in Hin as (_ & Hg & Hbs).
    apply synthetic_iter_inv in Hit
      as (gl & Hgl & Hb & HE & _ & _ & Hc & _ & _ & Hd & Hl).
    exists it, gl. repeat split; try assumption.
    + rewrite Hg. exact Hgl.
    + unfold batches. rewrite length_map, length_combine. lia.
    + now rewrite Hb.
  - split; [reflexivity|]. split; [reflexivity|]. discriminate.
Qed.

(** The crop, the padding and the layout of [CropMirrorNormalize] come
    from [args.image_shape] and [args.input_layout] alone: every
    pipeline crops to [image_shape[1:]] whatever the layout, pads the
    output exactly when [image_shape[0] == 4], and puts out NHWC exactly
    when [args.input_layout == 'NHWC'], NCHW otherwise.  When the
    arguments are not propagated, the mean and std are the ImageNet
    defaults even if [args] carries [rgb_mean] and [rgb_std]. *)
Theorem crop_and_layout_from_args (W : World) (args : gmap string pyval) kv dali_cpu rc
    prop_args ws it val (shape : list Z) (lay : pyval) :
  get_rec_pipeline_iter W args kv dali_cpu rc prop_args = (ws, Ok (DALITrain it, val)) →
  target_shape_of args ≫= seq_items = Ok shape →
  getattr args "input_layout" = Ok lay →
  let expected (c : CropMirrorNormalize) :=
    cmnp_crop c = drop 1 shape
    ∧ cmnp_pad_output c = (match shape with x :: _ => x =? 4 | [] => false end)
    ∧ cmnp_output_layout c = (if eq_str lay "NHWC" then NHWC else NCHW)
    ∧ (prop_args = false →
       mean c = VFloats _mean_pixel ∧ std c = VFloats _std_pixel) in
  Forall (fun p => expected (cmnp (train_methods p))) (pipelines it)
  ∧ ∀ v, val = Some v → Forall (fun p => expected (cmnp (val_methods p))) (pipelines v).
Proof.
  intros H Hshape Hlay expected.
  apply dali_return_inv in H
    as (ts & g & bs' & b & tsz & vsz & Hin & _ & Hb & _ & -> & -> & _).
  apply read_inputs_inv in Hin as (Hts & _ & _).
  rewrite Hts in Hshape. simpl in Hshape.
  apply build_pipes_full in Hb
    as (shape' & c & gl & th & lay' & batch & pv & pz & rec & idx & Hs & Hc & _ & Hlay'
        & _ & _ & _ & _ & _ & _ & _ & _ & Htp & _ & Hval).
  rewrite Hshape in Hs. injection Hs as <-.
  rewrite Hlay in Hlay'. injection Hlay' as <-.
  assert (∀ dt rc' rr args' m,
            ImageMethods_init (pz * 1024 * 1024) (drop 1 shape)
              (if eq_str lay "NHWC" then NHWC else NCHW) (c =? 4) dt rc' rr
              (if prop_args then Some args else args') dali_cpu = Ok m →
            args' = None → expected (cmnp m)) as Hexp.
  { intros dt rc' rr args' m Hm ->.
    apply ImageMethods_init_inv in Hm as (rm & rs & Hrm & Hrs & -> & _).
    unfold expected. simpl.
    split; [reflexivity|]. split; [|split; [reflexivity|]].
    - destruct shape; [discriminate | now injection Hc as ->].
    - intros ->. unfold get_attribute in Hrm, Hrs. simpl in Hrm, Hrs.
      injection Hrm as <-. injection Hrs as <-. split; reflexivity. }
  split.
  - simpl. apply trainpipes_of_fields in Htp as [_ Htp].
    eapply Forall_impl; [exact Htp|].
    intros p (_ & _ & _ & _ & _ & _ & _ & dt & _ & _ & Hm). eapply Hexp; eauto.
  - intros v Hv. destruct (built_val b) as [vb|]; [|discriminate].
    injection Hv as <-. simpl.
    destruct Hval as (_ & _ & vth & rec' & idx' & rshp & _ & _ & _ & _ & Hvp).
    apply valpipes_of_fields in Hvp as [_ Hvp].
    eapply Forall_impl; [exact Hvp|].
    intros p (_ & _ & _ & _ & _ & _ & dt & m & _ & Hm & -> & _). eapply Hexp; eauto.
Qed.

Lemma path_of_hasattr (args : gmap string pyval) (attr suffix : string) (v : pyval) :
  path_of args attr suffix = Ok v →
  hasattr args attr = true ∨ hasattr args "data_dir" = true.
Proof.
  unfold path_of. destruct (hasattr args attr); [now left|].
  intros H. ok_bind H as d Hd. right. eapply getattr_hasattr, Hd.
Qed.

(** The attributes a DALI run cannot do without.  Whenever it returns,
    [args] has [image_shape], [batch_size], [dali_threads],
    [input_layout], [dali_nvjpeg_memory_padding], [dtype],
    [dali_prefetch_queue] and [num_examples], one of [kvstore] and
    [kv_store], and for each record and index file either its own
    attribute or [data_dir]; with a validation iterator also [resize] or
    [data_val_resize].  A missing one is an [AttributeError], so the
    defaults that [add_dali_pipeline_args] declares are needed. *)
Theorem required_attributes (W : World) (args : gmap string pyval) kv dali_cpu rc
    prop_args ws it val :
  get_rec_pipeline_iter W args kv dali_cpu rc prop_args = (ws, Ok (DALITrain it, val)) →
  Forall (fun name => hasattr args name = true)
         ["image_shape"; "batch_size"; "dali_threads"; "input_layout";
          "dali_nvjpeg_memory_padding"; "dtype"; "dali_prefetch_queue"; "num_examples"]
  ∧ (hasattr args "kvstore" = true ∨ hasattr args "kv_store" = true)
  ∧ (hasattr args "data_train" = true ∨ hasattr args "data_dir" = true)
  ∧ (hasattr args "data_train_idx" = true ∨ hasattr args "data_dir" = true)
  ∧ (is_Some val →
     hasattr args "data_val" = true
     ∧ (hasattr args "data_val_idx" = true ∨ hasattr args "data_dir" = true)
     ∧ (hasattr args "resize" = true ∨ hasattr args "data_val_resize" = true)).
Proof.
  intros H.
  apply dali_return_inv in H
    as (ts & g & bs' & b & tsz & vsz & Hin & _ & Hb & Hcheck & -> & -> & _).
  apply read_inputs_inv in Hin as (Hts & _ & Hbs).
  apply build_pipes_full in Hb
    as (shape & c & gl & th & lay & batch & pv & pz & rec & idx & _ & _ & Hth & Hlay
        & _ & Hw & _ & Hrec & Hidx & _ & Hpad & _ & Htp & Hne & Hval).
  apply trainpipes_of_fields in Htp as [_ Htp].
  destruct (trainpipes b) as [|p ps]; [now destruct Hne|].
  apply Forall_cons in Htp as [(_ & _ & _ & _ & _ & _ & _ & dt & Hdt & Hpq & _) _].
  split; [|split; [|split; [|split]]].
  - unfold target_shape_of in Hts. ok_bind Hts as v Hv.
    unfold check_num_examples in Hcheck. ok_bind Hcheck as ne Hne'.
    repeat constructor; eapply getattr_hasattr; eassumption.
  - unfold workers_of in Hw. ok_bind Hw as k Hk.
    destruct (hasattr args "kvstore"); [now left|]. right. eapply getattr_hasattr, Hk.
  - eapply path_of_hasattr, Hrec.
  - eapply path_of_hasattr, Hidx.
  - intros [v Hv]. destruct (built_val b) as [vb|]; [|discriminate].
    destruct Hval as (Hflg & _ & vth & rec' & idx' & rshp & _ & _ & Hidx' & Hres & _).
    split; [|split].
    + unfold val_flg_of, hasattr in *.
      destruct (args !! "data_val"); [reflexivity | discriminate].
    + eapply path_of_hasattr, Hidx'.
    + destruct (hasattr args "resize"); [now left|]. right.
      eapply getattr_hasattr, Hres.
Qed.

(** Outside separate validation the validation pipeline of a GPU reads
    the same shard as its training pipeline: same device, same
    [shard_id] and same [num_shards], GPU by GPU. *)
Theorem val_shards_follow_train (W : World) (args : gmap string pyval) kv dali_cpu rc
    prop_args ws it v :
  get_rec_pipeline_iter W args kv dali_cpu rc prop_args
  = (ws, Ok (DALITrain it, Some v)) →
  separ_val_flag_of args = false →
  Forall2 (fun tp vp =>
             device_id (val_pipeline vp) = device_id (train_pipeline tp)
             ∧ shard_id (input (val_reader vp)) = shard_id (input (train_reader tp))
             ∧ num_shards (input (val_reader vp)) = num_shards (input (train_reader tp)))
          (pipelines it) (pipelines v).
Proof.
  intros H Hsep.
  apply dali_return_inv in H
    as (ts & g & bs' & b & tsz & vsz & _ & _ & Hb & _ & -> & Hv & _).
  apply build_pipes_full in Hb
    as (shape & c & gl & th & lay & batch & pv & pz & rec & idx & _ & _ & _ & _
        & _ & _ & _ & _ & _ & _ & _ & _ & Htp & _ & Hval).
  destruct (built_val b) as [vb|]; [|discriminate]. injection Hv as ->. simpl.
  destruct Hval as (_ & Hflag & vth & rec' & idx' & rshp & _ & _ & _ & _ & Hvp).
  rewrite Hflag, Hsep in Hvp.
  apply trainpipes_of_inv in Htp. apply valpipes_of_inv in Hvp.
  apply Forall2_same_length_lookup. split.
  - rewrite <- (Forall2_length _ _ _ Htp). apply (Forall2_length _ _ _ Hvp).
  - intros i tp vp Htpi Hvpi.
    destruct (Forall2_lookup_r _ _ _ _ _ Htp Htpi) as (gpu_id & Hgi & Hd & Hs & Hn & _).
    destruct (Forall2_lookup_r _ _ _ _ _ Hvp Hvpi) as (gpu_id' & Hgi' & Hd' & Hs' & Hn').
    rewrite Hgi in Hgi'. injection Hgi' as <-.
    rewrite Hs in Hs'. injection Hs' as Hs'. repeat split; congruence.
Qed.

Lemma ImageMethods_init_ops padding crop out_layout pad_out (dt : pyval) rc rr
    (args : option (gmap string pyval)) dali_cpu m :
  ImageMethods_init padding crop out_layout pad_out dt rc rr args dali_cpu = Ok m →
  decode m
  = (let decoder_device := if dali_cpu_truthy dali_cpu then "cpu" else "mixed" in
     if random_crop_truthy rc
     then ImageDecoderRandomCrop decoder_device RGB padding padding
            (match args with
             | None => Some {| random_aspect_ratio := map float_literal ["0.75"; "1.33"];
                               random_area := map float_literal ["0.08"; "1.0"];
                               num_attempts := 10 |}
             | Some _ => None
             end)
     else ImageDecoder decoder_device RGB padding padding)
  ∧ (let dali_device := if dali_cpu_truthy dali_cpu then "cpu" else "gpu" in
     if rr then resize m = Some (RandomResizedCrop dali_device crop)
     else ∃ x y rest, crop = x :: y :: rest ∧ resize m = Some (Resize dali_device x y)).
Proof.
  unfold ImageMethods_init. intros H.
  ok_bind H as dec Hdec. ok_bind H as res Hres.
  ok_bind H as rgb_mean Hmean. ok_bind H as rgb_std Hstd.
  injection H as <-. simpl. split.
  - destruct (random_crop_truthy rc); [|now injection Hdec].
    destruct args as [a|]; [now injection Hdec|].
    ok_bind Hdec as len Hlen.
    destruct rc; simpl in Hlen; try discriminate;
      injection Hlen as <-; simpl in Hdec; now injection Hdec.
  - cbv zeta. destruct rr; [injection Hres as <-; reflexivity|].
    destruct crop as [|x [|y rest]]; try discriminate.
    injection Hres as <-. eauto.
Qed.

(** The operators by mode.  The decoder runs on ["cpu"] under a truthy
    [dali_cpu] and on ["mixed"] otherwise, with
    [args.dali_nvjpeg_memory_padding] MiB of padding on the device and
    on the host.  Training decodes with a random crop exactly when
    [random_crop] is truthy and then resizes with a plain [Resize] to
    [crop_shape[0]] by [crop_shape[1]], which so must exist; otherwise it
    decodes plainly and resizes with [RandomResizedCrop].  Validation
    always decodes plainly and resizes, if at all, by the shorter edge on
    the ["gpu"]; yet the [Resize] it throws away has been constructed
    when [dali_cpu] is not [None], so the crop needs its two entries
    then too.  [CropMirrorNormalize] is on the ["gpu"] in every mode. *)
Theorem operators_by_mode (W : World) (args : gmap string pyval) kv dali_cpu rc
    prop_args ws it val (shape : list Z) (pad : Z) :
  get_rec_pipeline_iter W args kv dali_cpu rc prop_args = (ws, Ok (DALITrain it, val)) →
  target_shape_of args ≫= seq_items = Ok shape →
  getattr args "dali_nvjpeg_memory_padding" ≫= as_int = Ok pad →
  let dali_device := if dali_cpu_truthy dali_cpu then "cpu" else "gpu" in
  let decoder_device := if dali_cpu_truthy dali_cpu then "cpu" else "mixed" in
  let bytes := pad * 1024 * 1024 in
  Forall (fun p =>
            cmnp_device (cmnp (train_methods p)) = "gpu"
            ∧ if random_crop_truthy rc
              then (∃ params, decode (train_methods p)
                              = ImageDecoderRandomCrop decoder_device RGB bytes bytes params)
                   ∧ ∃ x y rest, drop 1 shape = x :: y :: rest
                                 ∧ resize (train_methods p) = Some (Resize dali_device x y)
              else decode (train_methods p) = ImageDecoder decoder_device RGB bytes bytes
                   ∧ resize (train_methods p)
                     = Some (RandomResizedCrop dali_device (drop 1 shape)))
         (pipelines it)
  ∧ ∀ v, val = Some v →
      Forall (fun p =>
                cmnp_device (cmnp (val_methods p)) = "gpu"
                ∧ decode (val_methods p) = ImageDecoder decoder_device RGB bytes bytes
                ∧ ∀ r, resize (val_methods p) = Some r → ∃ s, r = ResizeShorter "gpu" s)
             (pipelines v)
      ∧ (dali_cpu ≠ None → ∃ x y rest, drop 1 shape = x :: y :: rest).
Proof.
  intros H Hshape Hpad dali_device decoder_device bytes.
  apply dali_return_inv in H
    as (ts & g & bs' & b & tsz & vsz & Hin & _ & Hb & _ & -> & -> & _).
  apply read_inputs_inv in Hin as (Hts & _ & _).
  rewrite Hts in Hshape. simpl in Hshape.
  apply build_pipes_full in Hb
    as (shape' & c & gl & th & lay' & batch & pv & pz & rec & idx & Hs & _ & _ & _
        & _ & _ & _ & _ & _ & _ & Hpv & Hpz & Htp & Hne & Hval).
  rewrite Hshape in Hs. injection Hs as <-.
  rewrite Hpv in Hpad. simpl in Hpad. rewrite Hpz in Hpad. injection Hpad as ->.
  fold bytes in Htp, Hval.
  split.
  - simpl. apply trainpipes_of_fields in Htp as [_ Htp].
    eapply Forall_impl; [exact Htp|].
    intros p (_ & _ & _ & _ & _ & _ & _ & dt & _ & _ & Hm).
    pose proof (ImageMethods_init_inv _ _ _ _ _ _ _ _ _ _ Hm) as (rm & rs & _ & _ & Hc & _).
    apply ImageMethods_init_ops in Hm as [Hdec Hres].
    split; [now rewrite Hc|]. simpl in Hdec, Hres.
    destruct (random_crop_truthy rc); simpl in Hres; split; eauto.
  - intros v Hv. destruct (built_val b) as [vb|]; [|discriminate].
    injection Hv as <-. simpl.
    destruct Hval as (_ & _ & vth & rec' & idx' & rshp & _ & _ & _ & _ & Hvp).
    apply valpipes_of_fields in Hvp as [Hlen Hvp]. split.
    + eapply Forall_impl; [exact Hvp|].
      intros p (_ & _ & _ & _ & _ & Hr & dt & m & _ & Hm & Hcm & Hdm).
      pose proof (ImageMethods_init_inv _ _ _ _ _ _ _ _ _ _ Hm)
        as (rm & rs & _ & _ & Hc & _).
      apply ImageMethods_init_ops in Hm as [Hdec _]. simpl in Hdec.
      split; [now rewrite Hcm, Hc|]. split; [now rewrite Hdm|].
      intros r Hr'. rewrite Hr in Hr'.
      destruct (truthy rshp); [|discriminate]. injection Hr' as <-. eauto.
    + intros Hcpu. destruct (valpipes vb) as [|p ps] eqn:Hps.
      * exfalso. apply trainpipes_of_fields in Htp as [Hlt _].
        simpl in Hlen. destruct gl; [|discriminate].
        destruct (trainpipes b); [now apply Hne | discriminate].
      * apply Forall_cons in Hvp
          as [(_ & _ & _ & _ & _ & _ & dt & m & _ & Hm & _) _].
        apply ImageMethods_init_ops in Hm as [_ Hres].
        destruct dali_cpu; [|now destruct Hcpu].
        destruct Hres as (x & y & rest & Hcrop & _). eauto.
Qed.

Lemma valpipes_of_readers (args : gmap string pyval) batch threads rec_path idx_path
    gpu_list rank shards shape resize_shp out_layout pad_out padding dali_cpu prop_args
    name separ ps :
  valpipes_of args batch threads rec_path idx_path gpu_list rank shards shape resize_shp
    out_layout pad_out padding dali_cpu prop_args name separ = Ok ps →
  Forall (fun p =>
            seed (val_pipeline p) = 12 + device_id (val_pipeline p)
            ∧ num_threads (val_pipeline p) = threads
            ∧ path (input (val_reader p)) = [rec_path]
            ∧ index_path (input (val_reader p)) = [idx_path]
            ∧ random_shuffle (input (val_reader p)) = false
            ∧ getattr args "dali_prefetch_queue"
              = Ok (prefetch_queue_depth (val_pipeline p))) ps.
Proof.
  unfold valpipes_of. intros H. apply mapM_Ok in H.
  eapply Forall2_Forall_r; [exact H|]. apply Forall_forall.
  intros gpu_id _ p Hp. simpl in Hp.
  ok_bind Hp as sh Hsh. ok_bind Hp as dt Hdt. ok_bind Hp as pq Hpq.
  unfold HybridValPipe_init in Hp. ok_bind Hp as m Hm. injection Hp as <-.
  simpl. repeat split. exact Hpq.
Qed.

(** Readers, seeds and threads.  Every pipeline is seeded with
    [12 + device_id], so the training and the validation pipeline of a
    GPU share their seed, and gets [args.dali_prefetch_queue] as its
    queue depth.  The training readers shuffle and read the training
    record and index files; the validation readers do not shuffle, run
    on [args.dali_validation_threads] if there is one and on
    [args.dali_threads] otherwise, and read [args.data_val] itself: the
    fallback [args.data_dir + "/val.rec"] of line 321 is never taken,
    since validation is on only when [args] has [data_val]. *)
Theorem readers_and_seeds (W : World) (args : gmap string pyval) kv dali_cpu rc
    prop_args ws it val (threads : pyval) :
  get_rec_pipeline_iter W args kv dali_cpu rc prop_args = (ws, Ok (DALITrain it, val)) →
  getattr args "dali_threads" = Ok threads →
  (∃ rec_path idx_path,
     path_of args "data_train" "/train.rec" = Ok rec_path
     ∧ path_of args "data_train_idx" "/train.idx" = Ok idx_path
     ∧ Forall (fun p =>
                 seed (train_pipeline p) = 12 + device_id (train_pipeline p)
                 ∧ num_threads (train_pipeline p) = threads
                 ∧ getattr args "dali_prefetch_queue"
                   = Ok (prefetch_queue_depth (train_pipeline p))
                 ∧ input (train_reader p)
                   = {| path := [rec_path]; index_path := [idx_path];
                        random_shuffle := true;
                        shard_id := shard_id (input (train_reader p));
                        num_shards := num_shards (input (train_reader p)) |})
              (pipelines it))
  ∧ ∀ v, val = Some v →
      ∃ data_val idx_path,
        args !! "data_val" = Some data_val
        ∧ path_of args "data_val_idx" "/val.idx" = Ok idx_path
        ∧ Forall (fun p =>
                    seed (val_pipeline p) = 12 + device_id (val_pipeline p)
                    ∧ num_threads (val_pipeline p)
                      = match args !! "dali_validation_threads" with
                        | Some t => t
                        | None => threads
                        end
                    ∧ getattr args "dali_prefetch_queue"
                      = Ok (prefetch_queue_depth (val_pipeline p))
                    ∧ input (val_reader p)
                      = {| path := [data_val]; index_path := [idx_path];
                           random_shuffle := false;
                           shard_id := shard_id (input (val_reader p));
                           num_shards := num_shards (input (val_reader p)) |})
                 (pipelines v).
Proof.
  intros H Hth.
  apply dali_return_inv in H
    as (ts & g & bs' & b & tsz & vsz & _ & _ & Hb & _ & -> & -> & _).
  apply build_pipes_full in Hb
    as (shape & c & gl & th & lay & batch & pv & pz & rec & idx & _ & _ & Hth' & _
        & _ & _ & _ & Hrec & Hidx & _ & _ & _ & Htp & _ & Hval).
  rewrite Hth in Hth'. injection Hth' as <-.
  split.
  - exists rec, idx. split; [exact Hrec|]. split; [exact Hidx|].
    simpl. apply trainpipes_of_fields in Htp as [_ Htp].
    eapply Forall_impl; [exact Htp|].
    intros p (_ & Hn & Hs & _ & Hp & Hi & Hsh & dt & _ & Hpq & _).
    repeat split; try assumption.
    destruct (input (train_reader p)); simpl in *. congruence.
  - intros v Hv. destruct (built_val b) as [vb|]; [|discriminate].
    injection Hv as <-. simpl.
    destruct Hval as (Hflg & _ & vth & rec' & idx' & rshp & Hvth & Hrec' & Hidx' & _ & Hvp).
    assert (args !! "data_val" = Some rec') as Hdv.
    { unfold val_flg_of in Hflg. unfold path_of, hasattr, getattr in Hrec'.
      destruct (args !! "data_val"); [now injection Hrec' as -> | discriminate]. }
    exists rec', idx'. split; [exact Hdv|]. split; [exact Hidx'|].
    apply valpipes_of_readers in Hvp.
    eapply Forall_impl; [exact Hvp|].
    intros p (Hs & Hn & Hp & Hi & Hsh & Hpq).
    split; [exact Hs|]. split; [|split; [exact Hpq|]].
    + unfold hasattr, getattr in Hvth. rewrite Hn.
      destruct (args !! "dali_validation_threads"); now injection Hvth.
    + destruct (input (val_reader p)); simpl in *. congruence.
Qed.

End Assembly.

(** * The further properties at concrete inputs *)

(** ** The argument merge *)

(** A caller with a short flag of its own. *)
Definition short_flag_args : list argspec :=
  [ {| arg_name := "-s"; arg_rest := [FStr "store_true"; FStr "silent"] |} ].

Lemma substring_drops_separ_val_witness :
  ∃ calls,
    add_dali_pipeline_args short_flag_args = Ok calls
    ∧ length calls = 6%nat
    ∧ (∀ d, d ∈ remaining_defaults short_flag_args → arg_name d ≠ "--separ-val")
    ∧ ∀ j call, calls !! j = Some call → call_name call = "--separ-val" →
                ∃ c, short_flag_args !! j = Some c ∧ arg_name c = "--separ-val".
Proof.
  eexists. split; [vm_compute; reflexivity|]. split; [reflexivity|].
  eapply (substring_drops_separ_val short_flag_args _
            {| arg_name := "-s"; arg_rest := [FStr "store_true"; FStr "silent"] |}).
  - apply list_elem_of_In. simpl. auto.
  - vm_compute. reflexivity.
  - vm_compute. reflexivity.
Defined.

Lemma registration_needs_full_tuples_witness :
  add_dali_pipeline_args_call None = Raise TypeError
  ∧ is_Ok (add_dali_pipeline_args_call
             (Some [ {| arg_name := "--epochs"; arg_rest := [FType IntT] |} ])) = false
  ∧ ∃ calls,
      add_dali_pipeline_args_call (Some short_flag_args) = Ok calls
      ∧ call_name <$> calls
        = ["-s"; "--dali-threads"; "--dali-prefetch-queue"; "--dali-nvjpeg-memory-padding";
           "--num_examples"; "--reader_name"].
Proof.
  split; [apply (registration_needs_full_tuples None); reflexivity|].
  split.
  - eapply (registration_needs_full_tuples (Some _)); [reflexivity|].
    apply Exists_cons_hd. simpl. lia.
  - eexists. split; [vm_compute; reflexivity|].
    edestruct (registration_needs_full_tuples (Some short_flag_args))
      as (_ & _ & Hcalls).
    edestruct Hcalls as (l & Hl & _ & Hnames); [vm_compute; reflexivity|].
    injection Hl as <-. rewrite Hnames. vm_compute. reflexivity.
Defined.

(** ** The synthetic iterator *)

Lemma next_raise_is_stable_witness :
  ∃ it0,
    SyntheticDataIter_init imagenet 1000 [VInt 10; VInt 3; VInt 224; VInt 224]
      VNone (VStr "float32") (VList [0]) (VStr "NCHW") = Ok it0
    ∧ fst (next it0) = Raise TypeError
    ∧ snd (next it0) = it0
    ∧ ∀ n : nat, fst (next_n n it0) = replicate n (Raise TypeError)
                 ∧ snd (next_n n it0) = it0.
Proof.
  eexists. split; [vm_compute; reflexivity|]. split; [vm_compute; reflexivity|].
  eapply (next_raise_is_stable _ TypeError). vm_compute. reflexivity.
Defined.

Lemma next_call_returns_iff_witness :
  ∃ it0,
    SyntheticDataIter_init imagenet 1000 [VInt 10; VInt 3; VInt 224; VInt 224]
      (VInt 100) (VStr "float32") (VList [0; 1]) (VStr "NCHW") = Ok it0
    ∧ ∀ n k : nat, (k < n)%nat →
        fst (next_n n it0) !! k
        = Some (if Z.of_nat k * (10 * Z.of_nat (length [0; 1])) <=? 100
                then Ok (batches it0) else Raise StopIteration).
Proof.
  eexists. split; [vm_compute; reflexivity|].
  eapply (next_call_returns_iff imagenet 1000 [VInt 3; VInt 224; VInt 224]
            (VStr "float32") (VList [0; 1]) (VStr "NCHW") _ 100 10 [0; 1]).
  - vm_compute. reflexivity.
  - reflexivity.
  - vm_compute. reflexivity.
Defined.

Lemma negative_budget_serves_nothing_witness :
  ∃ it0,
    SyntheticDataIter_init imagenet 1000 [VInt 10; VInt 3; VInt 224; VInt 224]
      (VInt (-1)) (VStr "float32") (VList [0]) (VStr "NCHW") = Ok it0
    ∧ ∀ n : nat, fst (next_n n it0) = replicate n (Raise StopIteration)
                 ∧ snd (next_n n it0) = it0.
Proof.
  eexists. split; [vm_compute; reflexivity|].
  eapply (negative_budget_serves_nothing imagenet 1000
            [VInt 10; VInt 3; VInt 224; VInt 224] (VStr "float32") (VList [0])
            (VStr "NCHW") _ (-1)).
  - vm_compute. reflexivity.
  - vm_compute. reflexivity.
Defined.

Lemma zero_step_never_stops_witness :
  ∃ it0,
    SyntheticDataIter_init imagenet 1000 [VInt 10; VInt 3; VInt 224; VInt 224]
      (VInt 100) (VStr "float32") (VList []) (VStr "NCHW") = Ok it0
    ∧ ∀ n : nat, fst (next_n n it0) = replicate n (Ok (batches it0))
                 ∧ snd (next_n n it0) = it0
                 ∧ length (batches it0) = 0%nat.
Proof.
  eexists. split; [vm_compute; reflexivity|].
  eapply (zero_step_never_stops imagenet 1000 [VInt 3; VInt 224; VInt 224]
            (VStr "float32") (VList []) (VStr "NCHW") _ 100 10 []).
  - vm_compute. reflexivity.
  - reflexivity.
  - reflexivity.
  - vm_compute. discriminate.
Defined.

Lemma descriptors_match_step_witness :
  ∃ it0,
    SyntheticDataIter_init imagenet 1000 [VInt 16; VInt 3; VInt 224; VInt 224]
      (VInt 64) (VStr "float32") (VList [0; 1]) (VStr "NHWC") = Ok it0
    ∧ provide_data tuple_type (snd (next_n 2 it0))
      = Ok [ {| desc_name := "data";
                desc_shape := [VInt 32; VInt 3; VInt 224; VInt 224];
                desc_dtype := VStr "float32"; desc_layout := VStr "NHWC" |} ]
    ∧ provide_data list_type (snd (next_n 2 it0)) = Raise TypeError
    ∧ provide_label (snd (next_n 2 it0))
      = Ok [ {| desc_name := "softmax_label"; desc_shape := [VInt 32];
                desc_dtype := np_float32; desc_layout := VStr "NCHW" |} ].
Proof.
  eexists. split; [vm_compute; reflexivity|].
  lazymatch goal with
  | |- context [next_n 2 ?it] =>
      destruct (descriptors_match_step imagenet 1000 [VInt 3; VInt 224; VInt 224]
                  (VInt 64) (VStr "float32") (VList [0; 1]) (VStr "NHWC") it 16 [0; 1]
                  eq_refl eq_refl 2%nat) as (Hd & Hr & Hl & _)
  end.
  split; [exact Hd|]. split; [exact Hr | exact Hl].
Defined.

(** ** The assembly *)

Lemma pipelines_share_batch_size_witness :
  ∃ ws it val batch,
    get_rec_pipeline_iter imagenet dali_args second_of_two None (RCBool true) false
    = (ws, Ok (DALITrain it, val))
    ∧ (∃ n, as_int (VInt 128 : @pyval Q) = Ok n ∧ 2 ≠ 0 ∧ [0; 1] ≠ []
            ∧ batch = VInt (n / 2 / Z.of_nat (length [0; 1])))
    ∧ Forall (fun p => pipe_batch_size (train_pipeline p) = batch) (pipelines it)
    ∧ ∀ v, val = Some v →
           Forall (fun p => pipe_batch_size (val_pipeline p) = batch) (pipelines v).
Proof.
  eexists _, _, _.
  edestruct (pipelines_share_batch_size imagenet dali_args second_of_two None
               (RCBool true) false) as (batch & Hb & Ht & Hv).
  - vm_compute. reflexivity.
  - vm_compute. reflexivity.
  - vm_compute. reflexivity.
  - vm_compute. reflexivity.
  - exists batch. split; [vm_compute; reflexivity|].
    split; [exact Hb|]. split; [exact Ht | exact Hv].
Defined.

Lemma empty_gpu_list_never_returns_witness :
  synthetic_flag (<["gpus" := VStr ""]> dali_args) = false
  ∧ is_Ok (snd (get_rec_pipeline_iter imagenet (<["gpus" := VStr ""]> dali_args)
                  None (Some true) (RCBool true) false)) = false.
Proof.
  split; [vm_compute; reflexivity|].
  apply (empty_gpu_list_never_returns imagenet (<["gpus" := VStr ""]> dali_args)
           None (Some true) (RCBool true) false).
  - vm_compute. reflexivity.
  - vm_compute. reflexivity.
Defined.

Lemma tuple_random_crop_never_returns_witness :
  is_Ok (snd (get_rec_pipeline_iter imagenet dali_args None None (RCSeq 3) false)) = false
  ∧ is_Ok (snd (get_rec_pipeline_iter imagenet dali_args None None (RCBool true) false))
    = true.
Proof.
  split; [|vm_compute; reflexivity].
  apply (tuple_random_crop_never_returns imagenet dali_args None None 2).
  vm_compute. reflexivity.
Defined.

Lemma validation_iff_data_val_witness :
  ∃ ws it,
    get_rec_pipeline_iter imagenet (<["no_val" := VBool true]> dali_args) None None
      (RCBool true) false
    = (ws, Ok (DALITrain it, None))
    ∧ ¬ ((∃ v, (<["no_val" := VBool true]> dali_args) !! "data_val" = Some v ∧ v ≠ VNone)
         ∧ ∀ v, (<["no_val" := VBool true]> dali_args) !! "no_val" = Some v
                → truthy v = false).
Proof.
  eexists _, _. split; [vm_compute; reflexivity|].
  edestruct (validation_iff_data_val imagenet (<["no_val" := VBool true]> dali_args)
               None None (RCBool true) false) as [[_ Hback] _].
  - vm_compute. reflexivity.
  - intros H. destruct (Hback H) as [x Hx]. discriminate.
Defined.


Lemma synthetic_mode_ignores_workers_witness :
  get_rec_pipeline_iter imagenet synthetic_args None None (RCBool true) false
  = get_rec_pipeline_iter imagenet synthetic_args second_of_two (Some true) (RCSeq 3) true
  ∧ fst (get_rec_pipeline_iter imagenet synthetic_args None None (RCBool true) false) = []
  ∧ is_Ok (snd (get_rec_pipeline_iter imagenet synthetic_args None None (RCBool true)
                  false)) = true.
Proof.
  edestruct (synthetic_mode_ignores_workers imagenet synthetic_args None None
               (RCBool true) false second_of_two (Some true) (RCSeq 3) true)
    as (Hsame & Hws & _).
  - vm_compute. reflexivity.
  - split; [exact Hsame|]. split; [exact Hws|]. vm_compute. reflexivity.
Defined.

Lemma crop_and_layout_from_args_witness :
  ∃ ws it val,
    get_rec_pipeline_iter imagenet (<["input_layout" := VStr "NHWC"]> dali_args) None None
      (RCBool true) false
    = (ws, Ok (DALITrain it, val))
    ∧ Forall (fun p => cmnp_crop (cmnp (train_methods p)) = [224; 224]
                       ∧ cmnp_pad_output (cmnp (train_methods p)) = false
                       ∧ cmnp_output_layout (cmnp (train_methods p)) = NHWC)
             (pipelines it).
Proof.
  eexists _, _, _. split; [vm_compute; reflexivity|].
  pose proof (fun ws it val =>
                crop_and_layout_from_args imagenet
                  (<["input_layout" := VStr "NHWC"]> dali_args) None None (RCBool true)
                  false ws it val [3; 224; 224] (VStr "NHWC")) as Hthm.
  edestruct Hthm as [Ht _].
  - vm_compute. reflexivity.
  - vm_compute. reflexivity.
  - vm_compute. reflexivity.
  - eapply Forall_impl; [exact Ht|]. intros p (Hc & Hp & Hl & _).
    split; [exact Hc|]. split; [exact Hp | exact Hl].
Defined.

Lemma required_attributes_witness :
  ∃ ws it val,
    get_rec_pipeline_iter imagenet dali_args None None (RCBool true) false
    = (ws, Ok (DALITrain it, val))
    ∧ Forall (fun name => hasattr dali_args name = true)
             ["image_shape"; "batch_size"; "dali_threads"; "input_layout";
              "dali_nvjpeg_memory_padding"; "dtype"; "dali_prefetch_queue";
              "num_examples"]
    ∧ is_Ok (snd (get_rec_pipeline_iter imagenet (delete "dtype" dali_args) None None
                    (RCBool true) false)) = false.
Proof.
  eexists _, _, _. split; [vm_compute; reflexivity|].
  edestruct (required_attributes imagenet dali_args None None (RCBool true) false)
    as (Hall & _).
  - vm_compute. reflexivity.
  - split; [exact Hall|]. vm_compute. reflexivity.
Defined.

Lemma val_shards_follow_train_witness :
  ∃ ws it v,
    get_rec_pipeline_iter imagenet dali_args second_of_two None (RCBool true) false
    = (ws, Ok (DALITrain it, Some v))
    ∧ Forall2 (fun tp vp =>
                 device_id (val_pipeline vp) = device_id (train_pipeline tp)
                 ∧ shard_id (input (val_reader vp)) = shard_id (input (train_reader tp))
                 ∧ num_shards (input (val_reader vp))
                   = num_shards (input (train_reader tp)))
              (pipelines it) (pipelines v)
    ∧ (λ p, shard_id (input (val_reader p))) <$> pipelines v = [2; 3].
Proof.
  eexists _, _, _. split; [vm_compute; reflexivity|].
  split; [|vm_compute; reflexivity].
  eapply (val_shards_follow_train imagenet dali_args second_of_two None (RCBool true)
            false).
  - vm_compute. reflexivity.
  - vm_compute. reflexivity.
Defined.

Lemma operators_by_mode_witness :
  ∃ ws it val,
    get_rec_pipeline_iter imagenet dali_args None (Some true) (RCBool true) false
    = (ws, Ok (DALITrain it, val))
    ∧ Forall (fun p => resize (train_methods p) = Some (Resize "cpu" 224 224)
                       ∧ cmnp_device (cmnp (train_methods p)) = "gpu")
             (pipelines it).
Proof.
  eexists _, _, _. split; [vm_compute; reflexivity|].
  pose proof (fun ws it val =>
                operators_by_mode imagenet dali_args None (Some true) (RCBool true) false
                  ws it val [3; 224; 224] 16) as Hthm.
  edestruct Hthm as [Ht _].
  - vm_compute. reflexivity.
  - vm_compute. reflexivity.
  - vm_compute. reflexivity.
  - eapply Forall_impl; [exact Ht|]. intros p (Hc & _ & x & y & rest & Hcrop & Hres).
    simpl in Hcrop. injection Hcrop as <- <- _. split; [exact Hres | exact Hc].
Defined.

Lemma readers_and_seeds_witness :
  ∃ ws it v,
    get_rec_pipeline_iter imagenet dali_args second_of_two None (RCBool true) false
    = (ws, Ok (DALITrain it, Some v))
    ∧ Forall (fun p => seed (val_pipeline p) = 12 + device_id (val_pipeline p)
                       ∧ num_threads (val_pipeline p) = VInt 3
                       ∧ path (input (val_reader p)) = [VStr "val.rec"])
             (pipelines v).
Proof.
  eexists _, _, _. split; [vm_compute; reflexivity|].
  pose proof (fun ws it val =>
                readers_and_seeds imagenet dali_args second_of_two None (RCBool true) false
                  ws it val (VInt 3)) as Hthm.
  edestruct Hthm as [_ Hv].
  - vm_compute. reflexivity.
  - vm_compute. reflexivity.
  - destruct (Hv _ eq_refl) as (dv & idx & Hdv & _ & Hall).
    vm_compute in Hdv. injection Hdv as <-.
    eapply Forall_impl; [exact Hall|]. intros p (Hs & Hn & _ & Hin).
    split; [exact Hs|]. split; [exact Hn|]. now rewrite Hin.
Defined.
